(** * deep_avsr: the audio-visual demo driver and its CTC decoding contract

    A shallow embedding of [audio_visual/demo.py].  The driver is glue code
    around collaborators that live in other modules of the repository
    (network classes, preprocessing, collation, the two CTC decoders) and in
    libraries (torch, numpy, os, csv).  The driver itself is embedded
    statement by statement in a state-and-exception monad; every collaborator
    is a field of an environment record, so that each call the driver makes
    is visible as an event of the run. *)

From Stdlib Require Import ZArith QArith Qabs Qminmax String Ascii List Bool Lia.
From stdpp Require Import base option list strings gmap fin_maps.

Local Open Scope string_scope.
Local Open Scope Z_scope.

(** ** Python [str] operations used by the driver

    A Python [str] is embedded as a [string]; one [ascii] stands for one
    character of the [str]. *)
Module PyStr.

Definition len (s : string) : Z := Z.of_nat (String.length s).

(** [s[i]]: negative indices count from the end, anything outside
    [-len, len) raises IndexError (here [None]).  The result is a [str] of
    length one. *)
Definition index (s : string) (i : Z) : option string :=
  let j := if i <? 0 then i + len s else i in
  if (j <? 0) || (len s <=? j) then None
  else match String.get (Z.to_nat j) s with
       | Some c => Some (String c EmptyString)
       | None => None
       end.

(** The clamping that slicing applies to one bound. *)
Definition clamp (n i : Z) : Z :=
  if i <? 0 then Z.max 0 (i + n) else Z.min i n.

(** [s[lo:hi]] with optional bounds; slicing never raises. *)
Definition slice (s : string) (lo hi : option Z) : string :=
  let n := len s in
  let a := match lo with Some i => clamp n i | None => 0 end in
  let b := match hi with Some i => clamp n i | None => n end in
  String.substring (Z.to_nat a) (Z.to_nat (b - a)) s.

(** [s.endswith(suffix)]. *)
Definition endswith (s suffix : string) : bool :=
  if len s <? len suffix then false
  else String.eqb
         (String.substring (Z.to_nat (len s - len suffix))
                           (String.length suffix) s)
         suffix.

(** [a <= b] on [str]: lexicographic on code points. *)
Definition le (a b : string) : bool := String.leb a b.

(** [posixpath.join(a, b)] for two components. *)
Definition path_join (a b : string) : string :=
  if String.prefix "/" b then b
  else if String.eqb a "" || endswith a "/" then a ++ b
  else a ++ "/" ++ b.

(** ["".join(parts)]. *)
Definition join (parts : list string) : string :=
  fold_right String.append "" parts.

Definition nl : string := String (ascii_of_nat 10) EmptyString.

End PyStr.

(** ** Outcomes, the process state and the monad of the driver *)

(** Exceptions that can end a run.  [InvalidInput] and [NoViableBeam] are the
    failure conditions the decoding contract names; [External] is any other
    exception raised inside a collaborator. *)
Inductive exn : Type :=
| NameError (name : string)
| IndexError
| KeyError
| SystemExit
| InvalidInput
| NoViableBeam
| External (what : string).

Inductive res (A : Type) : Type :=
| Ok (a : A)
| Raise (e : exn).
Arguments Ok {A} a.
Arguments Raise {A} e.

(** The two global random generators, each identified by its state. *)
Record Rng : Type := mkRng { np_rng : Z; torch_rng : Z }.

(** A call into a collaborator: it may consume randomness and may raise. *)
Definition ext_fn (A : Type) : Type := Rng -> res A * Rng.

(** A CSV row as the list of its fields. *)
Definition csv_row : Type := list string.

Section Model.
Context {num obj : Type}.

(** Values stored in the [beamSearchParams] dictionary. *)
Inductive cfgval : Type :=
| VInt (z : Z)
| VNum (x : num).

(** A batch of posterior matrices: one [T x V] matrix per sample. *)
Definition matrix : Type := list (list num).
Definition posterior_batch : Type := list matrix.

(** Calls that leave the driver, in the order they are made. *)
Inductive event : Type :=
| ESeedNumpy (seed : Z)
| ESeedTorch (seed : Z)
| ENewAVNet
| ENewVisualFrontend
| ENewLRS2CharLM
| ETorchLoad (path device : string)
| ELoadStateDict
| EModuleTo (device : string)
| EModuleEval
| EPreprocess (sampleFile : string)
| EPrepareInput (audioFile visualFeaturesFile : string) (noise : option obj)
| ECollate (samples : list ((obj * obj) * Z))
| EForward (inputBatch : option obj * option obj)
| EGreedy (outputBatch : posterior_batch) (inputLenBatch : list Z) (eosIx : Z)
| ESearch (outputBatch : posterior_batch) (inputLenBatch : list Z)
          (beamSearchParams : gmap string cfgval) (spaceIx eosIx : Z)
          (lm : option obj).

Definition is_decode (e : event) : bool :=
  match e with
  | EGreedy _ _ _ | ESearch _ _ _ _ _ _ => true
  | _ => false
  end.

Definition is_preprocess (e : event) : bool :=
  match e with
  | EPreprocess _ => true
  | _ => false
  end.

Definition is_seed (e : event) : bool :=
  match e with
  | ESeedNumpy _ | ESeedTorch _ => true
  | _ => false
  end.

(** What a run can change: the random generators, standard output, the calls
    made so far, and the files written (by name, as CSV rows). *)
Record World : Type := mkWorld {
  rng : Rng;
  stdout : list string;
  trace : list event;
  files : gmap string (list csv_row)
}.

Definition M (A : Type) : Type := World -> res A * World.

Definition ret {A} (a : A) : M A := fun w => (Ok a, w).

Definition bind {A B} (m : M A) (k : A -> M B) : M B :=
  fun w => match m w with
           | (Ok a, w') => k a w'
           | (Raise e, w') => (Raise e, w')
           end.

Definition raise {A} (e : exn) : M A := fun w => (Raise e, w).

End Model.

Arguments cfgval : clear implicits.
Arguments event : clear implicits.
Arguments World : clear implicits.
Arguments M : clear implicits.
Arguments matrix : clear implicits.
Arguments posterior_batch : clear implicits.

Notation "'let*' x ':=' m 'in' k" := (bind m (fun x => k))
  (at level 10, x pattern, m at level 100, k at level 200).

(** ** Configuration and collaborators *)

(** The entries of [config.args] that the driver reads. *)
Record Args {num : Type} : Type := mkArgs {
  SEED : Z;
  TRAINED_MODEL_FILE : option string;
  DEMO_DIRECTORY : string;
  TX_NUM_FEATURES : Z;
  TX_ATTENTION_HEADS : Z;
  TX_NUM_LAYERS : Z;
  PE_MAX_LENGTH : Z;
  AUDIO_FEATURE_SIZE : Z;
  TX_FEEDFORWARD_DIM : Z;
  TX_DROPOUT : num;
  NUM_CLASSES : Z;
  CODE_DIRECTORY : string;
  TRAINED_FRONTEND_FILE : string;
  TRAINED_LM_FILE : string;
  USE_LM : bool;
  TEST_DEMO_NOISY : bool;
  DATA_DIRECTORY : string;
  TEST_DEMO_MODE : string;
  ROI_SIZE : Z;
  NORMALIZATION_MEAN : num;
  NORMALIZATION_STD : num;
  STFT_WINDOW : string;
  STFT_WIN_LENGTH : num;
  STFT_OVERLAP : num;
  VIDEO_FPS : Z;
  MAIN_REQ_INPUT_LENGTH : Z;
  CHAR_TO_INDEX : gmap string Z;
  INDEX_TO_CHAR : gmap Z string;
  NOISE_SNR_DB : num;
  TEST_DEMO_DECODING : string;
  BEAM_WIDTH : Z;
  LM_WEIGHT_ALPHA : num;
  LENGTH_PENALTY_BETA : num;
  THRESH_PROBABILITY : num
}.
Arguments Args : clear implicits.

(** The collaborators of the driver.  Network objects, state dictionaries and
    input tensors are values of the opaque type [obj]; the driver never looks
    inside them.  [os_walk] gives the directory tree as the walk finds it:
    for each directory its path, its subdirectories and its files. *)
Record Env {num obj : Type} : Type := mkEnv {
  cuda_is_available : bool;
  os_walk : string -> list (string * list string * list string);
  AVNet : Z -> Z -> Z -> Z -> Z -> Z -> num -> Z -> ext_fn obj;
  VisualFrontend : ext_fn obj;
  LRS2CharLM : ext_fn obj;
  torch_load : string -> string -> ext_fn obj;
  load_state_dict : obj -> obj -> ext_fn obj;
  module_to : obj -> string -> ext_fn obj;
  module_eval : obj -> ext_fn obj;
  tensor_float : obj -> obj;
  tensor_to : obj -> string -> obj;
  preprocess_sample : string -> Z -> num -> num -> obj -> ext_fn unit;
  prepare_main_input :
    string -> string -> option obj -> Z -> gmap string Z -> num ->
    (string * num * num) -> Z -> ext_fn ((obj * obj) * Z);
  collate_fn : list ((obj * obj) * Z) -> ext_fn ((obj * obj) * list Z);
  forward : obj -> option obj * option obj -> ext_fn (posterior_batch num);
  ctc_greedy_decode :
    posterior_batch num -> list Z -> Z -> ext_fn (list Z * list Z);
  ctc_search_decode :
    posterior_batch num -> list Z -> gmap string (cfgval num) -> Z -> Z ->
    option obj -> ext_fn (list Z * list Z)
}.
Arguments Env : clear implicits.

(** ** The driver *)

Section Driver.
Context {num obj : Type}.
Variable env : Env num obj.
Variable args : Args num.

Abbreviation M := (M num obj).
Abbreviation World := (World num obj).

(** A call into a collaborator: recorded, then run on the generators. *)
Definition ext {A} (e : event num obj) (f : ext_fn A) : M A :=
  fun w => let '(r, g) := f (rng w) in
           (r, mkWorld (num:=num) (obj:=obj) g (stdout w)
                        (trace w ++ [e]) (files w)).

(** [print(s)]: one more entry on standard output. *)
Definition print (s : string) : M unit :=
  fun w => (Ok tt, mkWorld (rng w) (stdout w ++ [s]) (trace w) (files w)).

(** [np.random.seed(s)] *)
Definition np_random_seed (s : Z) : M unit :=
  fun w => (Ok tt, mkWorld (mkRng s (torch_rng (rng w))) (stdout w)
                           (trace w ++ [ESeedNumpy s]) (files w)).

(** [torch.manual_seed(s)] *)
Definition torch_manual_seed (s : Z) : M unit :=
  fun w => (Ok tt, mkWorld (mkRng (np_rng (rng w)) s) (stdout w)
                           (trace w ++ [ESeedTorch s]) (files w)).

(** [with open(name, "w", newline="") as file: ... writerow(row) ...] *)
Definition write_csv (name : string) (rows : list csv_row) : M unit :=
  fun w => (Ok tt, mkWorld (rng w) (stdout w) (trace w)
                           (fold_left (fun fs row =>
                                         <[name := (default [] (fs !! name) ++ [row])%list]> fs)
                                      rows (<[name := []]> (files w)))).

(** [d[k]] on a dictionary: KeyError when the key is missing. *)
Definition getitem {K V} `{Countable K} (d : gmap K V) (k : K) : M V :=
  match d !! k with
  | Some v => ret v
  | None => raise KeyError
  end.

(** [s[i]] on a [str]. *)
Definition str_index (s : string) (i : Z) : M string :=
  match PyStr.index s i with
  | Some c => ret c
  | None => raise IndexError
  end.

(** A list comprehension whose element expression may raise. *)
Fixpoint traverse {A B} (f : A -> M B) (xs : list A) : M (list B) :=
  match xs with
  | [] => ret []
  | x :: xs' => let* y := f x in let* ys := traverse f xs' in ret (y :: ys)
  end.

(** A [for] loop over a list, threading what the body updates. *)
Fixpoint foldM {A S} (f : S -> A -> M S) (s : S) (xs : list A) : M S :=
  match xs with
  | [] => ret s
  | x :: xs' => let* s' := f s x in foldM f s' xs'
  end.

(** Lines 142-152: the choice of the decoder. *)
Definition decode_step (lm : option obj) (outputBatch : posterior_batch num)
    (inputLenBatch : list Z) : M (list Z * list Z) :=
  if String.eqb (TEST_DEMO_DECODING args) "greedy" then
    let* eosIx := getitem (CHAR_TO_INDEX args) "<EOS>" in
    ext (EGreedy outputBatch inputLenBatch eosIx)
        (ctc_greedy_decode env outputBatch inputLenBatch eosIx)
  else if String.eqb (TEST_DEMO_DECODING args) "search" then
    let beamSearchParams : gmap string (cfgval num) :=
      <["threshProb" := VNum (THRESH_PROBABILITY args)]>
      (<["beta" := VNum (LENGTH_PENALTY_BETA args)]>
      (<["alpha" := VNum (LM_WEIGHT_ALPHA args)]>
      (<["beamWidth" := VInt (BEAM_WIDTH args)]> ∅))) in
    let* spaceIx := getitem (CHAR_TO_INDEX args) " " in
    let* eosIx := getitem (CHAR_TO_INDEX args) "<EOS>" in
    ext (ESearch outputBatch inputLenBatch beamSearchParams spaceIx eosIx lm)
        (ctc_search_decode env outputBatch inputLenBatch beamSearchParams
                           spaceIx eosIx lm)
  else
    let* _ := print "Invalid Decode Scheme" in
    raise SystemExit.

(** Lines 154-156: [predictionBatch[:][:-1]] mapped through
    [INDEX_TO_CHAR] and joined. *)
Definition to_prediction (predictionBatch : list Z) : M string :=
  let pred := removelast predictionBatch in
  let* chars := traverse (getitem (INDEX_TO_CHAR args)) pred in
  ret (PyStr.join chars).

(** Lines 94-106: speaker number, clip number and clip type from the name. *)
Definition parse_name (file : string) : M (string * string * string) :=
  let* sNum := str_index file 7 in
  let* c13 := str_index file 13 in
  let* digit :=
    (if PyStr.le c13 "9" then
       let* c13' := str_index file 13 in ret (PyStr.le "0" c13')
     else ret false) in
  let* cNum :=
    (if digit : bool then ret (PyStr.slice file (Some 12) (Some 14))
     else str_index file 12) in
  let* c6 := str_index file (-6) in
  let* cType :=
    (if String.eqb c6 "l" then ret "jumble"
     else let* c6' := str_index file (-6) in
          if String.eqb c6' "s" then ret "base"
          else ret (PyStr.slice file (Some (-8)) (Some (-4)))) in
  ret (sNum, cNum, cType).

(** Lines 94-164: the body of the loop for one [.mp4] file.  The valid-length
    batch is a sequence of integers, on which [.int()] and [.to(device)]
    change nothing; [model.eval()] and the network call go through the
    environment. *)
Definition process_file (model vf : obj) (lm noise : option obj)
    (device root file : string) : M (obj * csv_row) :=
  let* (sNum, cNum, cType) := parse_name file in
  let sampleFile := PyStr.path_join root (PyStr.slice file None (Some (-4))) in
  let* _ := ext (EPreprocess sampleFile)
                (preprocess_sample env sampleFile (ROI_SIZE args)
                   (NORMALIZATION_MEAN args) (NORMALIZATION_STD args) vf) in
  let audioFile :=
    PyStr.path_join root (PyStr.slice file None (Some (-4))) ++ ".wav" in
  let visualFeaturesFile :=
    PyStr.path_join root (PyStr.slice file None (Some (-4))) ++ ".npy" in
  let audioParams :=
    (STFT_WINDOW args, STFT_WIN_LENGTH args, STFT_OVERLAP args) in
  let* (inp, inpLen) :=
    ext (EPrepareInput audioFile visualFeaturesFile noise)
        (prepare_main_input env audioFile visualFeaturesFile noise
           (MAIN_REQ_INPUT_LENGTH args) (CHAR_TO_INDEX args)
           (NOISE_SNR_DB args) audioParams (VIDEO_FPS args)) in
  let* (inputBatch, inputLenBatch) :=
    ext (ECollate [(inp, inpLen)]) (collate_fn env [(inp, inpLen)]) in
  let inputBatch :=
    (tensor_to env (tensor_float env (fst inputBatch)) device,
     tensor_to env (tensor_float env (snd inputBatch)) device) in
  let* inputBatch :=
    (if String.eqb (TEST_DEMO_MODE args) "AO" then
       ret (Some (fst inputBatch), None)
     else if String.eqb (TEST_DEMO_MODE args) "VO" then
       ret (None, Some (snd inputBatch))
     else if String.eqb (TEST_DEMO_MODE args) "AV" then
       ret (Some (fst inputBatch), Some (snd inputBatch))
     else
       let* _ := print "Invalid Operation Mode." in
       raise SystemExit) in
  let* model := ext EModuleEval (module_eval env model) in
  let* outputBatch := ext (EForward inputBatch) (forward env model inputBatch) in
  let* (predictionBatch, predictionLenBatch) :=
    decode_step lm outputBatch inputLenBatch in
  let* pred := to_prediction predictionBatch in
  let* _ := print ("File: " ++ file) in
  let* _ := print ("Speaker: " ++ sNum ++ "   Clip: " ++ cNum
                   ++ "   Clip Type: " ++ cType) in
  let* _ := print ("Prediction: " ++ pred) in
  let* _ := print PyStr.nl in
  ret (model, [sNum; cNum; cType; pred]).

(** Lines 91-164: the files of one directory. *)
Definition walk_files (vf : obj) (lm noise : option obj)
    (device root : string) (st : obj * list csv_row) (fs : list string)
    : M (obj * list csv_row) :=
  foldM (fun (st : obj * list csv_row) file =>
           let '(model, rows) := st in
           if PyStr.endswith file ".mp4" then
             let* (model', row) :=
               process_file model vf lm noise device root file in
             ret (model', (rows ++ [row])%list)
           else ret (model, rows))
        st fs.

(** A network object: constructed, given its trained weights, moved. *)
Definition load_module (ctor_event : event num obj) (ctor : ext_fn obj)
    (path device : string) : M obj :=
  let* m := ext ctor_event ctor in
  let* sd := ext (ETorchLoad path device) (torch_load env path device) in
  let* m := ext ELoadStateDict (load_state_dict env m sd) in
  ext (EModuleTo device) (module_to env m device).

(** Lines 51-171: the run once a trained model file is given. *)
Definition run_demo (device trained : string) : M unit :=
  let* _ := print (PyStr.nl ++ "Trained Model File: " ++ trained) in
  let* _ := print (PyStr.nl ++ "Demo Directory: " ++ DEMO_DIRECTORY args) in
  let* model :=
    load_module ENewAVNet
      (AVNet env (TX_NUM_FEATURES args) (TX_ATTENTION_HEADS args)
         (TX_NUM_LAYERS args) (PE_MAX_LENGTH args)
         (AUDIO_FEATURE_SIZE args) (TX_FEEDFORWARD_DIM args)
         (TX_DROPOUT args) (NUM_CLASSES args))
      (CODE_DIRECTORY args ++ trained) device in
  let* vf :=
    load_module ENewVisualFrontend (VisualFrontend env)
      (TRAINED_FRONTEND_FILE args) device in
  let* lm :=
    load_module ENewLRS2CharLM (LRS2CharLM env)
      (TRAINED_LM_FILE args) device in
  let lm := if negb (USE_LM args) then None else Some lm in
  let* noise :=
    (if TEST_DEMO_NOISY args then raise (NameError "wavfile")
     else ret (@None obj)) in
  let* _ := print (PyStr.nl ++ PyStr.nl ++ "Running Demo .... " ++ PyStr.nl) in
  let rows : list csv_row := [] in
  let* _ := print (TEST_DEMO_MODE args) in
  let* (_, rows) :=
    foldM (fun st '(root, dirs, fs) =>
             walk_files vf lm noise device root st fs)
          (model, rows) (os_walk env (DEMO_DIRECTORY args)) in
  let* _ := print ("Demo Completed." ++ PyStr.nl) in
  write_csv "predictions-noise-10db.csv" rows.

(** Lines 41-176. *)
Definition main : M unit :=
  let* _ := np_random_seed (SEED args) in
  let* _ := torch_manual_seed (SEED args) in
  let gpuAvailable := cuda_is_available env in
  let device := if gpuAvailable then "cuda" else "cpu" in
  match TRAINED_MODEL_FILE args with
  | Some trained => run_demo device trained
  | None =>
      print (PyStr.nl ++ "Path to trained model file not specified." ++ PyStr.nl)
  end.

End Driver.

(** ** The decoding contract

    [ctc_greedy_decode] and [ctc_search_decode] live in [utils/decoders.py],
    outside of [demo.py]; they are embedded from the contract the
    specification gives for the Greedy Decoder and the Beam Search
    Decoder. *)

(** Modelled from the spec: the arithmetic that [utils/decoders.py] performs
    on probabilities and scores.  Floating-point numbers are kept abstract:
    tests for NaN, for a negative value and for a sum "far from 1", zero,
    sum, product, logarithm, log-sum-exp and the strict order. *)
Class Numeric (num : Type) : Type := mkNumeric {
  is_nan : num -> bool;
  is_negative : num -> bool;
  far_from_one : num -> bool;
  nzero : num;
  nadd : num -> num -> num;
  nmul : num -> num -> num;
  nlog : num -> num;
  logsumexp : num -> num -> num;
  nltb : num -> num -> bool
}.

(** Sequencing of results in code that has no state of its own. *)
Definition rbind {A B} (r : res A) (k : A -> res B) : res B :=
  match r with
  | Ok a => k a
  | Raise e => Raise e
  end.

Fixpoint rmap {A B} (f : A -> res B) (xs : list A) : res (list B) :=
  match xs with
  | [] => Ok []
  | x :: xs' => rbind (f x) (fun y => rbind (rmap f xs') (fun ys => Ok (y :: ys)))
  end.

Module CTC.
Section Decoders.
Context {num : Type} `{Numeric num}.

(** Modelled from the spec: the alphabet's distinguished [BLANK] index, which
    the configuration supplies to [utils/decoders.py] (the driver passes
    only the indices of SPACE and EOS). *)
Variable BLANK : Z.

(** Modelled from the spec: the sum of one step's distribution, for the
    input check of [utils/decoders.py]. *)
Definition row_sum (row : list num) : num := fold_left nadd row nzero.

(** Modelled from the spec: the input check of both decoders of
    [utils/decoders.py], "Malformed probability input (NaN/negative/sums far
    from 1): fails fast with an InvalidInput condition".  A matrix is well
    formed when no entry is NaN or negative and no row sum is far from
    one. *)
Definition well_formed (m : matrix num) : bool :=
  forallb (fun row =>
             forallb (fun p => negb (is_nan p) && negb (is_negative p)) row
             && negb (far_from_one (row_sum row)))
          m.

(** Modelled from the spec: the per-step arg-max of [ctc_greedy_decode]; the
    first maximal index wins. *)
Fixpoint argmax_from (best : Z) (bestp : num) (i : Z) (row : list num) : Z :=
  match row with
  | [] => best
  | p :: row' =>
      if nltb bestp p then argmax_from i p (i + 1) row'
      else argmax_from best bestp (i + 1) row'
  end.

(** Modelled from the spec: "pick argmax index of the distribution", in
    [ctc_greedy_decode]. *)
Definition argmax (row : list num) : Z :=
  match row with
  | [] => 0
  | p :: row' => argmax_from 0 p 1 row'
  end.

(** Modelled from the spec: the collapsing of [ctc_greedy_decode],
    "consecutive repeats of the same non-blank label collapse to one
    occurrence" (blanks are dropped next, so runs of blanks may collapse as
    well). *)
Fixpoint collapse_repeats (xs : list Z) : list Z :=
  match xs with
  | [] => []
  | x :: rest =>
      match rest with
      | y :: _ => if x =? y then collapse_repeats rest
                  else x :: collapse_repeats rest
      | [] => [x]
      end
  end.

(** Modelled from the spec: in [ctc_greedy_decode], "blank labels are
    dropped entirely". *)
Definition drop_blanks (xs : list Z) : list Z :=
  List.filter (fun x => negb (x =? BLANK)) xs.

(** Modelled from the spec: in [utils/decoders.py], scanning "stops early at
    the first occurrence of EOS"; the labels before it are the real
    labels. *)
Fixpoint until_eos (eosIx : Z) (xs : list Z) : list Z :=
  match xs with
  | [] => []
  | x :: xs' => if x =? eosIx then [] else x :: until_eos eosIx xs'
  end.

(** Modelled from the spec: the form of what both decoders of
    [utils/decoders.py] return ("two decoding strategies share one
    contract"): the real labels "with EOS appended as terminal marker, and
    outputLength = number of real labels". *)
Definition terminate (eosIx : Z) (labels : list Z) : list Z * Z :=
  let real := until_eos eosIx labels in
  ((real ++ [eosIx])%list, Z.of_nat (length real)).

(** Modelled from the spec: [ctc_greedy_decode] on one sample, the Greedy
    Decoder [decode(posteriors, validLength, eosIndex) -> (labels,
    outputLength)]. *)
Definition greedy_sample (eosIx : Z) (posteriors : matrix num)
    (validLength : Z) : res (list Z * Z) :=
  if well_formed posteriors then
    let path := map argmax (firstn (Z.to_nat validLength) posteriors) in
    Ok (terminate eosIx (drop_blanks (collapse_repeats path)))
  else Raise InvalidInput.

(** Modelled from the spec: the Beam of [ctc_search_decode], with the four
    fields of the data model. *)
Record Beam : Type := mkBeam {
  labels : list Z;
  score : num;
  lastLabel : option Z;
  pendingWord : list Z
}.

(** Modelled from the spec: the parameters of [ctc_search_decode]. *)
Record SearchParams : Type := mkSearchParams {
  beamWidth : Z;
  alpha : num;
  beta : num;
  threshProb : num
}.

(** Modelled from the spec: the Language-Model Scorer that
    [ctc_search_decode] consults,
    [scoreWord(word, priorContext) -> log-probability]. *)
Definition Scorer : Type := list Z -> list Z -> num.

(** Modelled from the spec: in [ctc_search_decode], "if a beam's last
    appended symbol is EOS, it is frozen". *)
Definition frozen (eosIx : Z) (b : Beam) : bool :=
  match List.rev (labels b) with
  | x :: _ => x =? eosIx
  | [] => false
  end.

(** Modelled from the spec: "the step's own maximum", for the pruning of
    [ctc_search_decode]. *)
Definition row_max (row : list num) : num :=
  match row with
  | [] => nzero
  | p :: row' => fold_left (fun m q => if nltb m q then q else m) row' p
  end.

(** Modelled from the spec: the symbols of one step with their
    probabilities, in alphabet index order, for [ctc_search_decode]. *)
Fixpoint enumerate_from (i : Z) (row : list num) : list (Z * num) :=
  match row with
  | [] => []
  | p :: row' => (i, p) :: enumerate_from (i + 1) row'
  end.

(** Modelled from the spec: step 1 of [ctc_search_decode], "discard symbols
    whose probability is below threshProb relative to the step's own
    maximum". *)
Definition candidates (p : SearchParams) (row : list num) : list (Z * num) :=
  List.filter (fun cp => negb (nltb (snd cp) (nmul (threshProb p) (row_max row))))
              (enumerate_from 0 row).

(** Modelled from the spec: the language-model term of step 2 of
    [ctc_search_decode], [alpha * logP(word | context) + beta], the context
    being the labels before the pending word; "if language model is absent
    ... the whole language-model branch of step 2 becomes a no-op". *)
Definition lm_fuse (lm : option Scorer) (p : SearchParams) (b : Beam)
    (s : num) : num :=
  match lm with
  | Some scoreWord =>
      let context :=
        firstn (length (labels b) - length (pendingWord b))%nat (labels b) in
      nadd s (nadd (nmul (alpha p) (scoreWord (pendingWord b) context)) (beta p))
  | None => s
  end.

(** Modelled from the spec: step 2 of [ctc_search_decode], the successor of
    a beam by one surviving candidate symbol.  The cases are the bullets of
    the step, in their order: blank; immediate repeat of [lastLabel]; a new
    symbol, which consults the scorer first when it is SPACE or EOS and a
    word is pending.  The beam has the four fields of the data model; the
    separate tracking of blank and repeat transitions that the step mentions
    has no field there and is not represented. *)
Definition extend (lm : option Scorer) (p : SearchParams) (spaceIx eosIx : Z)
    (b : Beam) (c : Z) (pc : num) : Beam :=
  let s := nadd (score b) (nlog pc) in
  if c =? BLANK then mkBeam (labels b) s (lastLabel b) (pendingWord b)
  else if match lastLabel b with Some l => c =? l | None => false end
  then mkBeam (labels b) s (lastLabel b) (pendingWord b)
  else if (c =? spaceIx) || (c =? eosIx) then
    match pendingWord b with
    | [] => mkBeam (labels b ++ [c]) s (Some c) []
    | _ :: _ => mkBeam (labels b ++ [c]) (lm_fuse lm p b s) (Some c) []
    end
  else mkBeam (labels b ++ [c]) s (Some c) (pendingWord b ++ [c]).

(** Modelled from the spec: the expansion of [ctc_search_decode].  A frozen
    beam "carries forward as-is" (step 5); every other beam is extended by
    every candidate, iterating "existing beams then candidate symbols in
    alphabet index order". *)
Definition expand (lm : option Scorer) (p : SearchParams) (spaceIx eosIx : Z)
    (beams : list Beam) (cands : list (Z * num)) : list Beam :=
  flat_map (fun b =>
              if frozen eosIx b then [b]
              else map (fun cp => extend lm p spaceIx eosIx b (fst cp) (snd cp))
                       cands)
           beams.

(** Modelled from the spec: step 3 of [ctc_search_decode], "successor beams
    with identical resulting labels are combined" by log-sum-exp; the first
    one discovered keeps its place. *)
Fixpoint merge_into (b : Beam) (acc : list Beam) : list Beam :=
  match acc with
  | [] => [b]
  | a :: acc' =>
      if bool_decide (labels a = labels b)
      then mkBeam (labels a) (logsumexp (score a) (score b))
                  (lastLabel a) (pendingWord a) :: acc'
      else a :: merge_into b acc'
  end.

(** Modelled from the spec: step 3 of [ctc_search_decode] over all
    successors, in discovery order. *)
Definition merge (beams : list Beam) : list Beam :=
  fold_left (fun acc b => merge_into b acc) beams [].

(** Modelled from the spec: the ranking behind step 4 of
    [ctc_search_decode]; "ties in score are broken by preferring the beam
    discovered first". *)
Fixpoint insert_beam (b : Beam) (ranked : list Beam) : list Beam :=
  match ranked with
  | [] => [b]
  | a :: rest =>
      if nltb (score a) (score b) then b :: a :: rest
      else a :: insert_beam b rest
  end.

(** Modelled from the spec: the beams of [ctc_search_decode] by
    non-increasing score. *)
Definition rank (beams : list Beam) : list Beam :=
  fold_left (fun acc b => insert_beam b acc) beams [].

(** Modelled from the spec: step 4 of [ctc_search_decode], "retain only the
    beamWidth highest-scoring distinct beams". *)
Definition prune (p : SearchParams) (beams : list Beam) : list Beam :=
  firstn (Z.to_nat (beamWidth p)) (rank beams).

(** Modelled from the spec: one time step of [ctc_search_decode]; an empty
    beam set "fails with a NoViableBeam condition". *)
Definition search_step (lm : option Scorer) (p : SearchParams)
    (spaceIx eosIx : Z) (beams : list Beam) (row : list num)
    : res (list Beam) :=
  match prune p (merge (expand lm p spaceIx eosIx beams (candidates p row))) with
  | [] => Raise NoViableBeam
  | b :: bs => Ok (b :: bs)
  end.

(** Modelled from the spec: the time steps of [ctc_search_decode], in
    order. *)
Fixpoint search_steps (lm : option Scorer) (p : SearchParams)
    (spaceIx eosIx : Z) (beams : list Beam) (rows : matrix num)
    : res (list Beam) :=
  match rows with
  | [] => Ok beams
  | row :: rows' =>
      rbind (search_step lm p spaceIx eosIx beams row)
            (fun beams' => search_steps lm p spaceIx eosIx beams' rows')
  end.

(** Modelled from the spec: the beam [ctc_search_decode] starts a sample
    with, "created fresh per sample": no label, score zero. *)
Definition initial_beam : Beam := mkBeam [] nzero None [].

(** Modelled from the spec: [ctc_search_decode] on one sample, the Beam
    Search Decoder [decode(posteriors, validLength, params, spaceIndex,
    eosIndex, languageModel?) -> (labels, outputLength)]; the winner is the
    first of the ranked beams. *)
Definition search_sample (lm : option Scorer) (p : SearchParams)
    (spaceIx eosIx : Z) (posteriors : matrix num) (validLength : Z)
    : res (list Z * Z) :=
  if well_formed posteriors then
    rbind (search_steps lm p spaceIx eosIx [initial_beam]
             (firstn (Z.to_nat validLength) posteriors))
          (fun beams =>
             match beams with
             | best :: _ => Ok (terminate eosIx (labels best))
             | [] => Raise NoViableBeam
             end)
  else Raise InvalidInput.

(** Modelled from the spec: the label sequences that [utils/decoders.py]
    returns for a batch are "padded to the batch's maximum length for
    uniform storage". *)
Definition pad_to (width : nat) (eosIx : Z) (l : list Z) : list Z :=
  (l ++ repeat eosIx (width - length l))%list.

(** Modelled from the spec: either decoder of [utils/decoders.py] on a
    batch, "a set of samples decoded independently", each with its own
    matrix and valid length.  The driver reads the returned labels as one
    flat sequence of indices, so the padded sequences are stored one after
    the other. *)
Definition decode_batch (decode1 : matrix num -> Z -> res (list Z * Z))
    (eosIx : Z) (outputBatch : posterior_batch num) (inputLenBatch : list Z)
    : res (list Z * list Z) :=
  rbind (rmap (fun s => decode1 (fst s) (snd s))
              (combine outputBatch inputLenBatch))
        (fun outs =>
           let width := fold_right Nat.max 0%nat (map (fun o => length (fst o)) outs) in
           Ok (concat (map (fun o => pad_to width eosIx (fst o)) outs),
               map snd outs)).

(** Modelled from the spec: the parameter set of [ctc_search_decode], read
    from the dictionary the driver passes. *)
Definition params_of_dict (d : gmap string (cfgval num)) : option SearchParams :=
  match d !! "beamWidth", d !! "alpha", d !! "beta", d !! "threshProb" with
  | Some (VInt w), Some (VNum a), Some (VNum b), Some (VNum t) =>
      Some (mkSearchParams w a b t)
  | _, _, _, _ => None
  end.



End Decoders.
End CTC.

(** ** The driver on top of the decoding contract *)

Section SpecEnv.
Context {num obj : Type} `{Numeric num}.

(** Modelled from the spec: the alphabet's [BLANK] index known to
    [utils/decoders.py], and the scoring interface of a language-model
    object ([models/lrs2_char_lm.py]). *)
Variable BLANK : Z.
Variable scoreWord : obj -> CTC.Scorer (num:=num).

(** Modelled from the spec: [ctc_greedy_decode] of [utils/decoders.py] as
    the driver calls it, the Greedy Decoder applied to each sample of the
    batch.  "No I/O inside the decode call": the generators are left
    alone. *)
Definition spec_greedy_decode (outputBatch : posterior_batch num)
    (inputLenBatch : list Z) (eosIx : Z) : ext_fn (list Z * list Z) :=
  fun g =>
    (CTC.decode_batch (CTC.greedy_sample BLANK eosIx) eosIx
                      outputBatch inputLenBatch, g).

(** Modelled from the spec: [ctc_search_decode] of [utils/decoders.py] as
    the driver calls it, the Beam Search Decoder applied to each sample of
    the batch. *)
Definition spec_search_decode (outputBatch : posterior_batch num)
    (inputLenBatch : list Z) (beamSearchParams : gmap string (cfgval num))
    (spaceIx eosIx : Z) (lm : option obj) : ext_fn (list Z * list Z) :=
  fun g =>
    (match CTC.params_of_dict beamSearchParams with
     | Some p =>
         CTC.decode_batch
           (CTC.search_sample BLANK (option_map scoreWord lm) p spaceIx eosIx)
           eosIx outputBatch inputLenBatch
     | None => Raise KeyError
     end, g).

(** Modelled from the spec: an environment whose [ctc_greedy_decode] and
    [ctc_search_decode] are the two decoders of the contract; every other
    collaborator stays as given. *)
Definition with_spec_decoders (env : Env num obj) : Env num obj :=
  {| cuda_is_available := cuda_is_available env;
     os_walk := os_walk env;
     AVNet := AVNet env;
     VisualFrontend := VisualFrontend env;
     LRS2CharLM := LRS2CharLM env;
     torch_load := torch_load env;
     load_state_dict := load_state_dict env;
     module_to := module_to env;
     module_eval := module_eval env;
     tensor_float := tensor_float env;
     tensor_to := tensor_to env;
     preprocess_sample := preprocess_sample env;
     prepare_main_input := prepare_main_input env;
     collate_fn := collate_fn env;
     forward := forward env;
     ctc_greedy_decode := spec_greedy_decode;
     ctc_search_decode := spec_search_decode |}.

End SpecEnv.

(** ** Observations on runs *)

Section Observations.
Context {num obj : Type}.

Definition is_ok {A} (r : res A) : bool :=
  match r with
  | Ok _ => true
  | Raise _ => false
  end.

(** The number of decoder invocations recorded so far. *)
Definition decode_count (w : World num obj) : nat :=
  length (List.filter is_decode (trace w)).

(** [w'] continues [w] by events that all satisfy [P]. *)
Definition extends_by (P : event num obj -> bool) (w w' : World num obj) : Prop :=
  exists d, trace w' = (trace w ++ d)%list /\ forallb P d = true.

(** A computation that only makes calls satisfying [P]. *)
Definition only (P : event num obj -> bool) {A} (m : M num obj A) : Prop :=
  forall w, extends_by P w (snd (m w)).

(** A computation that writes no file. *)
Definition keeps_files {A} (m : M num obj A) : Prop :=
  forall w, files (snd (m w)) = files w.

(** A computation that makes exactly [n] decoder calls whenever it returns. *)
Definition decodes (n : nat) {A} (m : M num obj A) : Prop :=
  forall w a w', m w = (Ok a, w') -> decode_count w' = (decode_count w + n)%nat.

(** A collaborator that never raises. *)
Definition never_raises {A} (f : ext_fn A) : Prop :=
  forall g, is_ok (fst (f g)) = true.

(** The collaborators that build and load the three networks never raise. *)
Definition loads_never_raise (env : Env num obj) : Prop :=
  (forall a b c d e f x h, never_raises (AVNet env a b c d e f x h)) /\
  never_raises (VisualFrontend env) /\
  never_raises (LRS2CharLM env) /\
  (forall p d, never_raises (torch_load env p d)) /\
  (forall m s, never_raises (load_state_dict env m s)) /\
  (forall m d, never_raises (module_to env m d)).

(** The decode-mode selection is neither of the two supported ones. *)
Definition invalid_decoding (args : Args num) : Prop :=
  TEST_DEMO_DECODING args <> "greedy" /\ TEST_DEMO_DECODING args <> "search".

(** Events that are neither decoder nor preprocessing calls. *)
Definition admits_setup (P : event num obj -> bool) : Prop :=
  forall e, is_decode e = false -> is_preprocess e = false -> P e = true.

(** A computation that never returns normally. *)
Definition never_ok {A} (m : M num obj A) : Prop :=
  forall w, is_ok (fst (m w)) = false.




Definition no_decode (e : event num obj) : bool := negb (is_decode e).

Definition no_decode_no_preprocess (e : event num obj) : bool :=
  negb (is_decode e) && negb (is_preprocess e).



(** Indices looked up one by one in [INDEX_TO_CHAR]. *)
Fixpoint lookup_all (d : gmap Z string) (ixs : list Z) : option (list string) :=
  match ixs with
  | [] => Some []
  | i :: ixs' =>
      match d !! i, lookup_all d ixs' with
      | Some c, Some cs => Some (c :: cs)
      | _, _ => None
      end
  end.

End Observations.

(** ** Further observations on the driver *)

Section DriverObservations.
Context {num obj : Type}.

(** Lines 45-46: the device every load and move of the run is made for. *)
Definition device_of (env : Env num obj) : string :=
  if cuda_is_available env then "cuda" else "cpu".

(** Loads and moves, if any, are made for [device]. *)
Definition on_device (device : string) (e : event num obj) : bool :=
  match e with
  | ETorchLoad _ d => String.eqb d device
  | EModuleTo d => String.eqb d device
  | _ => true
  end.

(** Input preparation, if any, is asked for without a noise array. *)
Definition without_noise (e : event num obj) : bool :=
  match e with
  | EPrepareInput _ _ (Some _) => false
  | _ => true
  end.

(** Calls other than running the network or a decoder. *)
Definition no_network (e : event num obj) : bool :=
  match e with
  | EModuleEval => false
  | EForward _ => false
  | EGreedy _ _ _ => false
  | ESearch _ _ _ _ _ _ => false
  | _ => true
  end.

(** The network, if run, is given the audio input exactly when [audio] and
    the video input exactly when [video]. *)
Definition forward_gets (audio video : bool) (e : event num obj) : bool :=
  match e with
  | EForward (a, v) =>
      Bool.eqb (match a with Some _ => true | None => false end) audio
      && Bool.eqb (match v with Some _ => true | None => false end) video
  | _ => true
  end.

(** A collaborator that always raises. *)
Definition always_raises {A} (f : ext_fn A) : Prop :=
  forall g, is_ok (fst (f g)) = false.

(** The index of a symbol the selected decoder is called with is missing
    from [CHAR_TO_INDEX]. *)
Definition decoder_index_missing (args : Args num) : Prop :=
  (TEST_DEMO_DECODING args = "greedy" /\
   CHAR_TO_INDEX args !! "<EOS>" = None) \/
  (TEST_DEMO_DECODING args = "search" /\
   (CHAR_TO_INDEX args !! " " = None \/
    CHAR_TO_INDEX args !! "<EOS>" = None)).

(** Search invocations, if any, carry a language model. *)
Definition search_with_lm (e : event num obj) : bool :=
  match e with
  | ESearch _ _ _ _ _ None => false
  | _ => true
  end.

(** Calls other than to the greedy decoder, and other than to the
    beam-search decoder. *)
Definition no_greedy (e : event num obj) : bool :=
  match e with
  | EGreedy _ _ _ => false
  | _ => true
  end.

Definition no_search (e : event num obj) : bool :=
  match e with
  | ESearch _ _ _ _ _ _ => false
  | _ => true
  end.

(** The operation mode is one of the three of lines 127-131. *)
Definition valid_operation (args : Args num) : Prop :=
  TEST_DEMO_MODE args = "AO" \/ TEST_DEMO_MODE args = "VO" \/
  TEST_DEMO_MODE args = "AV".

(** The operation mode is none of "AO", "VO", "AV". *)
Definition invalid_operation (args : Args num) : Prop :=
  TEST_DEMO_MODE args <> "AO" /\ TEST_DEMO_MODE args <> "VO" /\
  TEST_DEMO_MODE args <> "AV".

(** The files the loop of line 92 lets through, in the order of the walk. *)
Definition is_video (file : string) : bool := PyStr.endswith file ".mp4".

Definition videos (walk : list (string * list string * list string))
    : list string :=
  flat_map (fun d => List.filter is_video (snd d)) walk.

(** The ten strings that lines 96 recognises as a digit. *)
Definition digits : list string :=
  ["0"; "1"; "2"; "3"; "4"; "5"; "6"; "7"; "8"; "9"].

(** A row whose first three fields are those read from the name [file]. *)
Definition row_for (file : string) (row : csv_row) : Prop :=
  exists sNum cNum cType pred,
    (forall w : World num obj,
        parse_name file w = (Ok (sNum, cNum, cType), w)) /\
    row = [sNum; cNum; cType; pred].

(** The four lines printed for a file whose row is [row]. *)
Definition report (file : string) (row : csv_row) : list string :=
  match row with
  | [sNum; cNum; cType; pred] =>
      ["File: " ++ file;
       "Speaker: " ++ sNum ++ "   Clip: " ++ cNum ++ "   Clip Type: " ++ cType;
       "Prediction: " ++ pred;
       PyStr.nl]
  | _ => []
  end.

(** The collaborators called for a file before the decoder never raise. *)
Definition file_steps_never_raise (env : Env num obj) : Prop :=
  (forall f r m s v, never_raises (preprocess_sample env f r m s v)) /\
  (forall a v n l c s p f,
      never_raises (prepare_main_input env a v n l c s p f)) /\
  (forall samples, never_raises (collate_fn env samples)) /\
  (forall m, never_raises (module_eval env m)) /\
  (forall m i, never_raises (forward env m i)).

(** What a run does to the files: nothing, or the CSV file rewritten. *)
Definition writes_csv_or_nothing {A} (m : M num obj A) : Prop :=
  forall w,
    match fst (m w) with
    | Ok _ =>
        exists rows,
          files (snd (m w))
          = <["predictions-noise-10db.csv" := rows]> (files w)
    | Raise _ => files (snd (m w)) = files w
    end.

End DriverObservations.

(** ** A concrete instance on which the model runs

    Exact rationals extended with NaN stand for floating-point numbers.  The
    logarithm is replaced by the monotone map [x - 1] and log-sum-exp by the
    maximum: enough to run both decoders on small matrices. *)
Module Sample.

Inductive tnum : Type :=
| TNaN
| TQ (q : Q).

Definition lift2 (f : Q -> Q -> Q) (a b : tnum) : tnum :=
  match a, b with
  | TQ x, TQ y => TQ (Qred (f x y))
  | _, _ => TNaN
  end.

Definition tlt (a b : tnum) : bool :=
  match a, b with
  | TQ x, TQ y => negb (Qle_bool y x)
  | _, _ => false
  end.

#[export] Instance tnum_numeric : Numeric tnum :=
  {| is_nan := fun a => match a with TNaN => true | TQ _ => false end;
     is_negative := fun a => tlt a (TQ 0);
     far_from_one := fun a =>
       match a with
       | TNaN => true
       | TQ x => negb (Qle_bool (Qabs (x - 1)) (1 # 1000))
       end;
     nzero := TQ 0;
     nadd := lift2 Qplus;
     nmul := lift2 Qmult;
     nlog := fun a => lift2 Qminus a (TQ 1);
     logsumexp := lift2 Qmax;
     nltb := tlt |}.

(** The alphabet: blank, space, two letters, the end marker. *)
Definition BLANK : Z := 0.

Definition char_to_index : gmap string Z :=
  <["<EOS>" := 4]> (<["B" := 3]> (<["A" := 2]> (<[" " := 1]> ∅))).

Definition index_to_char : gmap Z string :=
  <[4 := "<EOS>"]> (<[3 := "B"]> (<[2 := "A"]> (<[1 := " "]> ∅))).

Definition row (a b c d e : Q) : list tnum := [TQ a; TQ b; TQ c; TQ d; TQ e].

(** Five steps whose arg-max path is [A, A, BLANK, B, EOS]. *)
Definition posteriors : matrix tnum :=
  [ row (1#10) 0 (8#10) (1#10) 0;
    row (1#10) 0 (7#10) (2#10) 0;
    row (9#10) 0 (1#10) 0 0;
    row (1#10) 0 (1#10) (8#10) 0;
    row 0 0 0 (1#10) (9#10) ].

(** Three steps whose arg-max path is [A, BLANK, A]. *)
Definition posteriors_repeat : matrix tnum :=
  [ row (1#10) 0 (9#10) 0 0;
    row (9#10) 0 (1#10) 0 0;
    row (1#10) 0 (9#10) 0 0 ].



(** Collaborators: objects are named by strings; nothing raises. *)
Definition pure {A} (a : A) : ext_fn A := fun g => (Ok a, g).

Definition env_of (walk : list (string * list string * list string))
    (out : posterior_batch tnum) : Env tnum string :=
  with_spec_decoders BLANK (fun _ _ _ => TQ 0)
    {| cuda_is_available := false;
       os_walk := fun _ => walk;
       AVNet := fun _ _ _ _ _ _ _ _ => pure "AVNet";
       VisualFrontend := pure "VisualFrontend";
       LRS2CharLM := pure "LRS2CharLM";
       torch_load := fun path _ => pure path;
       load_state_dict := fun m _ => pure m;
       module_to := fun m _ => pure m;
       module_eval := fun m => pure m;
       tensor_float := fun t => t;
       tensor_to := fun t _ => t;
       preprocess_sample := fun _ _ _ _ _ => pure tt;
       prepare_main_input := fun a v _ _ _ _ _ _ => pure ((a, v), 5);
       collate_fn := fun samples =>
                       pure (match samples with
                             | s :: _ => fst s
                             | [] => ("", "")
                             end, map snd samples);
       forward := fun _ _ => pure out;
       ctc_greedy_decode := fun _ _ _ => pure ([], []);
       ctc_search_decode := fun _ _ _ _ _ _ => pure ([], []) |}.

Definition demo_walk : list (string * list string * list string) :=
  [("demo", [], ["speaker1clip12jumble.mp4"; "notes.txt"])].

Definition env : Env tnum string := env_of demo_walk [posteriors].

Definition args_of (trained : option string) (noisy use_lm : bool)
    (decoding : string) : Args tnum :=
  {| SEED := 19220297;
     TRAINED_MODEL_FILE := trained;
     DEMO_DIRECTORY := "demo";
     TX_NUM_FEATURES := 512;
     TX_ATTENTION_HEADS := 8;
     TX_NUM_LAYERS := 6;
     PE_MAX_LENGTH := 2500;
     AUDIO_FEATURE_SIZE := 321;
     TX_FEEDFORWARD_DIM := 2048;
     TX_DROPOUT := TQ (1 # 10);
     NUM_CLASSES := 40;
     CODE_DIRECTORY := "/code";
     TRAINED_FRONTEND_FILE := "/code/visual_frontend.pt";
     TRAINED_LM_FILE := "/code/language_model.pt";
     USE_LM := use_lm;
     TEST_DEMO_NOISY := noisy;
     DATA_DIRECTORY := "/data";
     TEST_DEMO_MODE := "AV";
     ROI_SIZE := 112;
     NORMALIZATION_MEAN := TQ (4161 # 10000);
     NORMALIZATION_STD := TQ (1688 # 10000);
     STFT_WINDOW := "hamming";
     STFT_WIN_LENGTH := TQ (4 # 100);
     STFT_OVERLAP := TQ (3 # 100);
     VIDEO_FPS := 25;
     MAIN_REQ_INPUT_LENGTH := 145;
     CHAR_TO_INDEX := char_to_index;
     INDEX_TO_CHAR := index_to_char;
     NOISE_SNR_DB := TQ 0;
     TEST_DEMO_DECODING := decoding;
     BEAM_WIDTH := 100;
     LM_WEIGHT_ALPHA := TQ (1 # 2);
     LENGTH_PENALTY_BETA := TQ (1 # 10);
     THRESH_PROBABILITY := TQ (1 # 10000) |}.

Definition w0 : World tnum string :=
  mkWorld (mkRng 0 0) [] [] ∅.

(** The same process with other generator states. *)
Definition w1 : World tnum string :=
  mkWorld (mkRng 7 11) [] [] ∅.


Definition trained : option string := Some "/weights/audio-visual.pt".

Definition args_greedy : Args tnum := args_of trained false true "greedy".
Definition args_search : Args tnum := args_of trained false false "search".
Definition args_noisy : Args tnum := args_of trained true true "greedy".
Definition args_no_model : Args tnum := args_of None false true "greedy".


End Sample.

(** Further configurations of the sample instance. *)
Module Cases.
Import Sample.

(** An operation mode that is none of the three. *)
Definition args_bad_mode : Args tnum :=
  {| SEED := SEED args_greedy;
     TRAINED_MODEL_FILE := TRAINED_MODEL_FILE args_greedy;
     DEMO_DIRECTORY := DEMO_DIRECTORY args_greedy;
     TX_NUM_FEATURES := TX_NUM_FEATURES args_greedy;
     TX_ATTENTION_HEADS := TX_ATTENTION_HEADS args_greedy;
     TX_NUM_LAYERS := TX_NUM_LAYERS args_greedy;
     PE_MAX_LENGTH := PE_MAX_LENGTH args_greedy;
     AUDIO_FEATURE_SIZE := AUDIO_FEATURE_SIZE args_greedy;
     TX_FEEDFORWARD_DIM := TX_FEEDFORWARD_DIM args_greedy;
     TX_DROPOUT := TX_DROPOUT args_greedy;
     NUM_CLASSES := NUM_CLASSES args_greedy;
     CODE_DIRECTORY := CODE_DIRECTORY args_greedy;
     TRAINED_FRONTEND_FILE := TRAINED_FRONTEND_FILE args_greedy;
     TRAINED_LM_FILE := TRAINED_LM_FILE args_greedy;
     USE_LM := false;
     TEST_DEMO_NOISY := false;
     DATA_DIRECTORY := DATA_DIRECTORY args_greedy;
     TEST_DEMO_MODE := "audio";
     ROI_SIZE := ROI_SIZE args_greedy;
     NORMALIZATION_MEAN := NORMALIZATION_MEAN args_greedy;
     NORMALIZATION_STD := NORMALIZATION_STD args_greedy;
     STFT_WINDOW := STFT_WINDOW args_greedy;
     STFT_WIN_LENGTH := STFT_WIN_LENGTH args_greedy;
     STFT_OVERLAP := STFT_OVERLAP args_greedy;
     VIDEO_FPS := VIDEO_FPS args_greedy;
     MAIN_REQ_INPUT_LENGTH := MAIN_REQ_INPUT_LENGTH args_greedy;
     CHAR_TO_INDEX := CHAR_TO_INDEX args_greedy;
     INDEX_TO_CHAR := INDEX_TO_CHAR args_greedy;
     NOISE_SNR_DB := NOISE_SNR_DB args_greedy;
     TEST_DEMO_DECODING := "greedy";
     BEAM_WIDTH := BEAM_WIDTH args_greedy;
     LM_WEIGHT_ALPHA := LM_WEIGHT_ALPHA args_greedy;
     LENGTH_PENALTY_BETA := LENGTH_PENALTY_BETA args_greedy;
     THRESH_PROBABILITY := THRESH_PROBABILITY args_greedy |}.

(** A configuration whose character table lacks the end marker. *)
Definition args_no_eos : Args tnum :=
  {| SEED := SEED args_greedy;
     TRAINED_MODEL_FILE := TRAINED_MODEL_FILE args_greedy;
     DEMO_DIRECTORY := DEMO_DIRECTORY args_greedy;
     TX_NUM_FEATURES := TX_NUM_FEATURES args_greedy;
     TX_ATTENTION_HEADS := TX_ATTENTION_HEADS args_greedy;
     TX_NUM_LAYERS := TX_NUM_LAYERS args_greedy;
     PE_MAX_LENGTH := PE_MAX_LENGTH args_greedy;
     AUDIO_FEATURE_SIZE := AUDIO_FEATURE_SIZE args_greedy;
     TX_FEEDFORWARD_DIM := TX_FEEDFORWARD_DIM args_greedy;
     TX_DROPOUT := TX_DROPOUT args_greedy;
     NUM_CLASSES := NUM_CLASSES args_greedy;
     CODE_DIRECTORY := CODE_DIRECTORY args_greedy;
     TRAINED_FRONTEND_FILE := TRAINED_FRONTEND_FILE args_greedy;
     TRAINED_LM_FILE := TRAINED_LM_FILE args_greedy;
     USE_LM := false;
     TEST_DEMO_NOISY := false;
     DATA_DIRECTORY := DATA_DIRECTORY args_greedy;
     TEST_DEMO_MODE := "AV";
     ROI_SIZE := ROI_SIZE args_greedy;
     NORMALIZATION_MEAN := NORMALIZATION_MEAN args_greedy;
     NORMALIZATION_STD := NORMALIZATION_STD args_greedy;
     STFT_WINDOW := STFT_WINDOW args_greedy;
     STFT_WIN_LENGTH := STFT_WIN_LENGTH args_greedy;
     STFT_OVERLAP := STFT_OVERLAP args_greedy;
     VIDEO_FPS := VIDEO_FPS args_greedy;
     MAIN_REQ_INPUT_LENGTH := MAIN_REQ_INPUT_LENGTH args_greedy;
     CHAR_TO_INDEX := <[" " := 1]> ∅;
     INDEX_TO_CHAR := INDEX_TO_CHAR args_greedy;
     NOISE_SNR_DB := NOISE_SNR_DB args_greedy;
     TEST_DEMO_DECODING := "greedy";
     BEAM_WIDTH := BEAM_WIDTH args_greedy;
     LM_WEIGHT_ALPHA := LM_WEIGHT_ALPHA args_greedy;
     LENGTH_PENALTY_BETA := LENGTH_PENALTY_BETA args_greedy;
     THRESH_PROBABILITY := THRESH_PROBABILITY args_greedy |}.

(** The sample configuration with other modes. *)
Definition with_modes (mode decoding : string) (use_lm : bool) : Args tnum :=
  {| SEED := SEED args_greedy;
     TRAINED_MODEL_FILE := TRAINED_MODEL_FILE args_greedy;
     DEMO_DIRECTORY := DEMO_DIRECTORY args_greedy;
     TX_NUM_FEATURES := TX_NUM_FEATURES args_greedy;
     TX_ATTENTION_HEADS := TX_ATTENTION_HEADS args_greedy;
     TX_NUM_LAYERS := TX_NUM_LAYERS args_greedy;
     PE_MAX_LENGTH := PE_MAX_LENGTH args_greedy;
     AUDIO_FEATURE_SIZE := AUDIO_FEATURE_SIZE args_greedy;
     TX_FEEDFORWARD_DIM := TX_FEEDFORWARD_DIM args_greedy;
     TX_DROPOUT := TX_DROPOUT args_greedy;
     NUM_CLASSES := NUM_CLASSES args_greedy;
     CODE_DIRECTORY := CODE_DIRECTORY args_greedy;
     TRAINED_FRONTEND_FILE := TRAINED_FRONTEND_FILE args_greedy;
     TRAINED_LM_FILE := TRAINED_LM_FILE args_greedy;
     USE_LM := use_lm;
     TEST_DEMO_NOISY := false;
     DATA_DIRECTORY := DATA_DIRECTORY args_greedy;
     TEST_DEMO_MODE := mode;
     ROI_SIZE := ROI_SIZE args_greedy;
     NORMALIZATION_MEAN := NORMALIZATION_MEAN args_greedy;
     NORMALIZATION_STD := NORMALIZATION_STD args_greedy;
     STFT_WINDOW := STFT_WINDOW args_greedy;
     STFT_WIN_LENGTH := STFT_WIN_LENGTH args_greedy;
     STFT_OVERLAP := STFT_OVERLAP args_greedy;
     VIDEO_FPS := VIDEO_FPS args_greedy;
     MAIN_REQ_INPUT_LENGTH := MAIN_REQ_INPUT_LENGTH args_greedy;
     CHAR_TO_INDEX := CHAR_TO_INDEX args_greedy;
     INDEX_TO_CHAR := INDEX_TO_CHAR args_greedy;
     NOISE_SNR_DB := NOISE_SNR_DB args_greedy;
     TEST_DEMO_DECODING := decoding;
     BEAM_WIDTH := BEAM_WIDTH args_greedy;
     LM_WEIGHT_ALPHA := LM_WEIGHT_ALPHA args_greedy;
     LENGTH_PENALTY_BETA := LENGTH_PENALTY_BETA args_greedy;
     THRESH_PROBABILITY := THRESH_PROBABILITY args_greedy |}.

Definition args_audio_only : Args tnum := with_modes "AO" "greedy" false.
Definition args_video_only : Args tnum := with_modes "VO" "search" true.
Definition args_video_beam : Args tnum := with_modes "VO" "beam" true.

(** A demo tree with two directories, three videos and two other files. *)
Definition two_directories : list (string * list string * list string) :=
  [("demo", ["day2"], ["speaker1clip12jumble.mp4"; "notes.txt"]);
   ("demo/day2", [], ["speaker2clip3base.mp4"; "speaker2clip3base.wav";
                      "speaker3clip7test.mp4"])].

Definition env_two_directories : Env tnum string :=
  env_of two_directories [posteriors].

(** The sample collaborators, except that no weights can be read from the
    language-model file. *)
Definition env_without_lm_file : Env tnum string :=
  {| cuda_is_available := cuda_is_available env;
     os_walk := os_walk env;
     AVNet := AVNet env;
     VisualFrontend := VisualFrontend env;
     LRS2CharLM := LRS2CharLM env;
     torch_load := fun path device g =>
       if String.eqb path "/code/language_model.pt"
       then (Raise (External "FileNotFoundError"), g)
       else torch_load env path device g;
     load_state_dict := load_state_dict env;
     module_to := module_to env;
     module_eval := module_eval env;
     tensor_float := tensor_float env;
     tensor_to := tensor_to env;
     preprocess_sample := preprocess_sample env;
     prepare_main_input := prepare_main_input env;
     collate_fn := collate_fn env;
     forward := forward env;
     ctc_greedy_decode := ctc_greedy_decode env;
     ctc_search_decode := ctc_search_decode env |}.

(** A process that already holds a prediction file and another file. *)
Definition w_with_files : World tnum string :=
  mkWorld (mkRng 0 0) [] []
          (<["predictions-noise-10db.csv" := [["old"; "row"]]]>
           (<["notes.csv" := [["kept"]]]> ∅)).

End Cases.


(** * Properties *)

(** ** Reasoning about runs *)

Section RunLemmas.
Context {num obj : Type}.
Implicit Types (w : World num obj) (P : event num obj -> bool).

Lemma bind_run_ok {A B} (m : M num obj A) (k : A -> M num obj B) w a w1 :
  m w = (Ok a, w1) -> bind m k w = k a w1.
Proof. unfold bind. intros ->. reflexivity. Qed.

Lemma bind_run_raise {A B} (m : M num obj A) (k : A -> M num obj B) w e w1 :
  m w = (Raise e, w1) -> bind m k w = (Raise e, w1).
Proof. unfold bind. intros ->. reflexivity. Qed.

Lemma bind_ok_inv {A B} (m : M num obj A) (k : A -> M num obj B) w b w' :
  bind m k w = (Ok b, w') ->
  exists a w1, m w = (Ok a, w1) /\ k a w1 = (Ok b, w').
Proof.
  unfold bind. destruct (m w) as [[a|e] w1]; intros Hk.
  - exists a, w1. split; [reflexivity | exact Hk].
  - discriminate Hk.
Qed.

Lemma extends_by_refl P w : extends_by P w w.
Proof. exists []. split; [symmetry; apply app_nil_r | reflexivity]. Qed.

Lemma extends_by_trans P w1 w2 w3 :
  extends_by P w1 w2 -> extends_by P w2 w3 -> extends_by P w1 w3.
Proof.
  intros [d1 [E1 F1]] [d2 [E2 F2]]. exists (d1 ++ d2)%list. split.
  - rewrite E2, E1. symmetry. apply app_assoc.
  - rewrite forallb_app, F1, F2. reflexivity.
Qed.

Lemma only_ret P {A} (a : A) : only P (ret a).
Proof. intros w. apply extends_by_refl. Qed.

Lemma only_raise P {A} e : only P (@raise num obj A e).
Proof. intros w. apply extends_by_refl. Qed.

Lemma only_bind P {A B} (m : M num obj A) (k : A -> M num obj B) :
  only P m -> (forall a, only P (k a)) -> only P (bind m k).
Proof.
  intros Hm Hk w. specialize (Hm w). unfold bind.
  destruct (m w) as [[a|e] w1]; cbn [snd] in *.
  - eapply extends_by_trans; [exact Hm | apply Hk].
  - exact Hm.
Qed.

Lemma only_bind_raise P {A B} e (k : A -> M num obj B) :
  only P (bind (raise e) k).
Proof. intros w. apply extends_by_refl. Qed.

Lemma keeps_files_ret {A} (a : A) : keeps_files (@ret num obj A a).
Proof. intros w. reflexivity. Qed.

Lemma keeps_files_raise {A} e : keeps_files (@raise num obj A e).
Proof. intros w. reflexivity. Qed.

Lemma keeps_files_bind {A B} (m : M num obj A) (k : A -> M num obj B) :
  keeps_files m -> (forall a, keeps_files (k a)) -> keeps_files (bind m k).
Proof.
  intros Hm Hk w. specialize (Hm w). unfold bind.
  destruct (m w) as [[a|e] w1]; cbn [snd] in *.
  - rewrite Hk. exact Hm.
  - exact Hm.
Qed.

Lemma keeps_files_bind_raise {A B} e (k : A -> M num obj B) :
  keeps_files (bind (raise e) k).
Proof. intros w. reflexivity. Qed.

Lemma decode_count_app w d (w' : World num obj) :
  trace w' = (trace w ++ d)%list ->
  decode_count w' = (decode_count w + length (List.filter is_decode d))%nat.
Proof.
  unfold decode_count. intros ->. rewrite List.filter_app, length_app.
  reflexivity.
Qed.

Lemma decodes_ret {A} (a : A) : decodes 0 (@ret num obj A a).
Proof. intros w a' w' [= <- <-]. lia. Qed.

Lemma decodes_raise n {A} e : decodes n (@raise num obj A e).
Proof. intros w a w' [=]. Qed.

Lemma decodes_bind n1 n2 {A B} (m : M num obj A) (k : A -> M num obj B) :
  decodes n1 m -> (forall a, decodes n2 (k a)) ->
  decodes (n1 + n2) (bind m k).
Proof.
  intros Hm Hk w b w' Hrun.
  destruct (bind_ok_inv _ _ _ _ _ Hrun) as (a & w1 & Hm1 & Hk1).
  rewrite (Hk _ _ _ _ Hk1), (Hm _ _ _ Hm1). lia.
Qed.

Lemma decodes_bind_0 n {A B} (m : M num obj A) (k : A -> M num obj B) :
  decodes 0 m -> (forall a, decodes n (k a)) -> decodes n (bind m k).
Proof. intros Hm Hk. apply (decodes_bind 0 n); assumption. Qed.

End RunLemmas.

(** ** The primitive actions of the driver *)

Section Primitives.
Context {num obj : Type}.
Implicit Types (w : World num obj) (P : event num obj -> bool).

Lemma only_print P s : only P (@print num obj s).
Proof.
  intros w. exists []. split; [cbn; symmetry; apply app_nil_r | reflexivity].
Qed.

Lemma only_ext P {A} (e : event num obj) (f : ext_fn A) :
  P e = true -> only P (ext e f).
Proof.
  intros He w. unfold ext. destruct (f (rng w)) as [r g]. cbn.
  exists [e]. split; [reflexivity | cbn; rewrite He; reflexivity].
Qed.

Lemma only_getitem P {K V} `{Countable K} (d : gmap K V) (k : K) :
  only P (@getitem num obj K V _ _ d k).
Proof. unfold getitem. destruct (d !! k); [apply only_ret | apply only_raise]. Qed.

Lemma only_str_index P s i : only P (@str_index num obj s i).
Proof.
  unfold str_index. destruct (PyStr.index s i); [apply only_ret | apply only_raise].
Qed.

Lemma only_traverse P {A B} (f : A -> M num obj B) xs :
  (forall x, only P (f x)) -> only P (traverse f xs).
Proof.
  intros Hf. induction xs as [|x xs IH]; cbn.
  - apply only_ret.
  - apply only_bind; [apply Hf | intros y].
    apply only_bind; [apply IH | intros ys]. apply only_ret.
Qed.

Lemma only_foldM P {A S} (f : S -> A -> M num obj S) xs :
  (forall s x, only P (f s x)) -> forall s, only P (foldM f s xs).
Proof.
  intros Hf. induction xs as [|x xs IH]; intros s; cbn.
  - apply only_ret.
  - apply only_bind; [apply Hf | intros s']. apply IH.
Qed.

Lemma keeps_files_print s : keeps_files (@print num obj s).
Proof. intros w. reflexivity. Qed.

Lemma keeps_files_ext {A} (e : event num obj) (f : ext_fn A) :
  keeps_files (ext e f).
Proof. intros w. unfold ext. destruct (f (rng w)). reflexivity. Qed.

Lemma keeps_files_getitem {K V} `{Countable K} (d : gmap K V) (k : K) :
  keeps_files (@getitem num obj K V _ _ d k).
Proof.
  unfold getitem.
  destruct (d !! k); [apply keeps_files_ret | apply keeps_files_raise].
Qed.

Lemma keeps_files_str_index s i : keeps_files (@str_index num obj s i).
Proof.
  unfold str_index.
  destruct (PyStr.index s i); [apply keeps_files_ret | apply keeps_files_raise].
Qed.

Lemma keeps_files_traverse {A B} (f : A -> M num obj B) xs :
  (forall x, keeps_files (f x)) -> keeps_files (traverse f xs).
Proof.
  intros Hf. induction xs as [|x xs IH]; cbn.
  - apply keeps_files_ret.
  - apply keeps_files_bind; [apply Hf | intros y].
    apply keeps_files_bind; [apply IH | intros ys]. apply keeps_files_ret.
Qed.

Lemma keeps_files_foldM {A S} (f : S -> A -> M num obj S) xs :
  (forall s x, keeps_files (f s x)) -> forall s, keeps_files (foldM f s xs).
Proof.
  intros Hf. induction xs as [|x xs IH]; intros s; cbn.
  - apply keeps_files_ret.
  - apply keeps_files_bind; [apply Hf | intros s']. apply IH.
Qed.

Lemma decodes_print s : decodes 0 (@print num obj s).
Proof. intros w a w' [= <- <-]. unfold decode_count. cbn. lia. Qed.

Lemma decodes_ext {A} (e : event num obj) (f : ext_fn A) :
  decodes (if is_decode e then 1 else 0) (ext e f).
Proof.
  intros w a w'. unfold ext. destruct (f (rng w)) as [r g]. intros [= -> <-].
  unfold decode_count. cbn. rewrite List.filter_app, length_app. cbn.
  destruct (is_decode e); reflexivity.
Qed.

Lemma decodes_ext_quiet {A} (e : event num obj) (f : ext_fn A) :
  is_decode e = false -> decodes 0 (ext e f).
Proof. intros He. generalize (decodes_ext e f). rewrite He. trivial. Qed.

Lemma decodes_ext_decode {A} (e : event num obj) (f : ext_fn A) :
  is_decode e = true -> decodes 1 (ext e f).
Proof. intros He. generalize (decodes_ext e f). rewrite He. trivial. Qed.

Lemma ext_ok_inv {A} (e : event num obj) (f : ext_fn A) w a w' :
  ext e f w = (Ok a, w') ->
  exists g, f (rng w) = (Ok a, g) /\
            w' = mkWorld g (stdout w) (trace w ++ [e])%list (files w).
Proof.
  unfold ext. destruct (f (rng w)) as [r g]. intros [= -> <-].
  exists g. split; reflexivity.
Qed.

Lemma decodes_getitem {K V} `{Countable K} (d : gmap K V) (k : K) :
  decodes 0 (@getitem num obj K V _ _ d k).
Proof.
  unfold getitem. destruct (d !! k); [apply decodes_ret | apply decodes_raise].
Qed.

Lemma decodes_str_index s i : decodes 0 (@str_index num obj s i).
Proof.
  unfold str_index.
  destruct (PyStr.index s i); [apply decodes_ret | apply decodes_raise].
Qed.

Lemma decodes_traverse {A B} (f : A -> M num obj B) xs :
  (forall x, decodes 0 (f x)) -> decodes 0 (traverse f xs).
Proof.
  intros Hf. induction xs as [|x xs IH]; cbn.
  - apply decodes_ret.
  - apply decodes_bind_0; [apply Hf | intros y].
    apply decodes_bind_0; [apply IH | intros ys]. apply decodes_ret.
Qed.

(** Looking indices up in a dictionary touches nothing. *)
Lemma traverse_getitem (d : gmap Z string) ixs w :
  traverse (@getitem num obj Z string _ _ d) ixs w =
  (match lookup_all d ixs with
   | Some cs => Ok cs
   | None => Raise KeyError
   end, w).
Proof.
  induction ixs as [|i ixs IH]; cbn; [reflexivity|].
  unfold bind, getitem at 1. destruct (d !! i) as [c|]; cbn; [|reflexivity].
  rewrite IH. destruct (lookup_all d ixs); reflexivity.
Qed.


End Primitives.

Create HintDb run_only.
Create HintDb run_files.
Create HintDb run_count.

#[local] Hint Resolve only_ret only_raise only_print only_getitem
  only_str_index only_bind_raise : run_only.
#[local] Hint Resolve keeps_files_ret keeps_files_raise keeps_files_print
  keeps_files_ext keeps_files_getitem keeps_files_str_index
  keeps_files_bind_raise : run_files.
#[local] Hint Resolve decodes_ret decodes_raise decodes_print decodes_getitem
  decodes_str_index : run_count.

(** Walks down a chain of binds, closing each primitive with the hints. *)
Ltac only_steps :=
  repeat first
    [ solve [auto with run_only]
    | apply only_ext; reflexivity
    | apply only_bind; [ | intros ? ]
    | match goal with
      | |- only _ (match ?x with (_, _) => _ end) => destruct x
      | |- only _ (if ?c then _ else _) => destruct c
      | |- only _ (match ?x with Some _ => _ | None => _ end) => destruct x
      end ].

Ltac files_steps :=
  repeat first
    [ solve [auto with run_files]
    | apply keeps_files_bind; [ | intros ? ]
    | match goal with
      | |- keeps_files (match ?x with (_, _) => _ end) => destruct x
      | |- keeps_files (if ?c then _ else _) => destruct c
      | |- keeps_files (match ?x with Some _ => _ | None => _ end) => destruct x
      end ].

Ltac count_steps :=
  repeat first
    [ solve [auto with run_count]
    | apply decodes_ext_quiet; reflexivity
    | apply decodes_bind_0; [ | intros ? ]
    | match goal with
      | |- decodes _ (match ?x with (_, _) => _ end) => destruct x
      | |- decodes _ (if ?c then _ else _) => destruct c
      | |- decodes _ (match ?x with Some _ => _ | None => _ end) => destruct x
      end ].

(** ** Facts about Python string indexing *)

Section StringFacts.

Lemma get_none_iff (s : string) (n : nat) :
  String.get n s = None <-> (String.length s <= n)%nat.
Proof.
  revert n. induction s as [|c s IH]; intros n; cbn.
  - split; [lia | reflexivity].
  - destruct n as [|n]; cbn.
    + split; [discriminate | lia].
    + rewrite IH. lia.
Qed.

Lemma index_out_of_range (s : string) (i : Z) :
  0 <= i -> PyStr.len s <= i -> PyStr.index s i = None.
Proof.
  intros Hi Hlen. unfold PyStr.index.
  destruct (i <? 0) eqn:Hneg; [apply Z.ltb_lt in Hneg; lia|].
  replace (PyStr.len s <=? i) with true by (symmetry; apply Z.leb_le; lia).
  rewrite orb_true_r. reflexivity.
Qed.

Lemma index_in_range (s : string) (i : Z) :
  - PyStr.len s <= i < PyStr.len s -> exists c, PyStr.index s i = Some c.
Proof.
  intros Hi. unfold PyStr.index.
  set (j := if i <? 0 then i + PyStr.len s else i).
  assert (Hj : 0 <= j < PyStr.len s).
  { unfold j. destruct (i <? 0) eqn:Hneg.
    - apply Z.ltb_lt in Hneg. lia.
    - apply Z.ltb_ge in Hneg. lia. }
  replace (j <? 0) with false by (symmetry; apply Z.ltb_ge; lia).
  replace (PyStr.len s <=? j) with false by (symmetry; apply Z.leb_gt; lia).
  cbn [orb]. destruct (String.get (Z.to_nat j) s) as [c|] eqn:Hget.
  - eauto.
  - apply get_none_iff in Hget. unfold PyStr.len in Hj. lia.
Qed.

(** The name of a demo clip, taken apart as lines 94-109 do. *)
Example index_speaker : PyStr.index "speaker1clip12jumble.mp4" 7 = Some "1".
Proof. reflexivity. Qed.

Example index_from_end : PyStr.index "speaker1clip12jumble.mp4" (-6) = Some "l".
Proof. reflexivity. Qed.

Example slice_clip : PyStr.slice "speaker1clip12jumble.mp4" (Some 12) (Some 14) = "12".
Proof. reflexivity. Qed.

Example slice_type : PyStr.slice "speaker1clip3test.mp4" (Some (-8)) (Some (-4)) = "test".
Proof. reflexivity. Qed.

Example slice_stem : PyStr.slice "speaker1clip12jumble.mp4" None (Some (-4)) = "speaker1clip12jumble".
Proof. reflexivity. Qed.

Example slice_short : PyStr.slice "a.mp4" (Some (-8)) (Some (-4)) = "a".
Proof. reflexivity. Qed.

Example endswith_video : PyStr.endswith "clip.mp4" ".mp4" = true.
Proof. reflexivity. Qed.

Example endswith_too_short : PyStr.endswith "mp4" ".mp4" = false.
Proof. reflexivity. Qed.

Example join_paths : PyStr.path_join "demo/day1" "clip" = "demo/day1/clip".
Proof. reflexivity. Qed.

End StringFacts.

(** ** Facts about the driver *)

Section DriverFacts.
Context {num obj : Type}.
Variable env : Env num obj.
Variable args : Args num.
Implicit Types (w : World num obj) (lm noise : option obj).

(** Lines 150-152: the [else] branch. *)
Lemma decode_step_invalid lm ob lens w :
  invalid_decoding args ->
  decode_step env args lm ob lens w =
  (Raise SystemExit,
   mkWorld (rng w) (stdout w ++ ["Invalid Decode Scheme"]) (trace w) (files w)).
Proof.
  intros [Hg Hs]. unfold decode_step.
  apply String.eqb_neq in Hg. apply String.eqb_neq in Hs.
  rewrite Hg, Hs. reflexivity.
Qed.

Lemma decodes_decode_step lm ob lens :
  decodes 1 (decode_step env args lm ob lens).
Proof.
  unfold decode_step.
  destruct (String.eqb _ "greedy").
  { apply decodes_bind_0; [apply decodes_getitem | intros eosIx].
    apply decodes_ext_decode. reflexivity. }
  destruct (String.eqb _ "search").
  { cbv zeta.
    apply decodes_bind_0; [apply decodes_getitem | intros spaceIx].
    apply decodes_bind_0; [apply decodes_getitem | intros eosIx].
    apply decodes_ext_decode. reflexivity. }
  apply decodes_bind_0; [apply decodes_print | intros _].
  apply decodes_raise.
Qed.

Lemma only_decode_step_invalid lm ob lens :
  invalid_decoding args -> only no_decode (decode_step env args lm ob lens).
Proof.
  intros Hinv w. rewrite decode_step_invalid by assumption. cbn.
  exists []. split; [symmetry; apply app_nil_r | reflexivity].
Qed.


Lemma keeps_files_decode_step lm ob lens :
  keeps_files (decode_step env args lm ob lens).
Proof. unfold decode_step. cbv zeta. files_steps. Qed.

Lemma to_prediction_run (p : list Z) w :
  to_prediction args p w =
  (match lookup_all (INDEX_TO_CHAR args) (removelast p) with
   | Some cs => Ok (PyStr.join cs)
   | None => Raise KeyError
   end, w).
Proof.
  unfold to_prediction, bind. rewrite traverse_getitem.
  destruct (lookup_all _ _); reflexivity.
Qed.

(** Reading the name touches nothing. *)
Lemma parse_name_pure file w : snd (parse_name (num:=num) (obj:=obj) file w) = w.
Proof.
  unfold parse_name, bind, str_index, ret, raise.
  repeat match goal with
         | |- context [match PyStr.index ?s ?i with _ => _ end] =>
             destruct (PyStr.index s i)
         | |- context [if ?c then _ else _] => destruct c
         end; reflexivity.
Qed.

Lemma parse_name_short file w :
  PyStr.len file < 14 ->
  parse_name (num:=num) (obj:=obj) file w = (Raise IndexError, w).
Proof.
  intros Hlen. unfold parse_name, bind, str_index at 1.
  destruct (PyStr.index file 7) as [c7|]; [|reflexivity].
  cbn. unfold str_index at 1.
  rewrite (index_out_of_range file 13) by lia. reflexivity.
Qed.

Lemma parse_name_long file w :
  14 <= PyStr.len file ->
  exists sNum cNum cType,
    PyStr.index file 7 = Some sNum /\
    parse_name (num:=num) (obj:=obj) file w = (Ok (sNum, cNum, cType), w).
Proof.
  intros Hlen.
  destruct (index_in_range file 7) as [c7 H7]; [lia|].
  destruct (index_in_range file 13) as [c13 H13]; [lia|].
  destruct (index_in_range file 12) as [c12 H12]; [lia|].
  destruct (index_in_range file (-6)) as [c6 H6]; [lia|].
  unfold parse_name, bind, str_index, ret. rewrite H7, H13, H6, H12.
  exists c7.
  destruct (PyStr.le c13 "9"), (PyStr.le "0" c13), (String.eqb c6 "l"),
    (String.eqb c6 "s"); cbn; eauto.
Qed.

Lemma decodes_parse_name file : decodes 0 (parse_name (num:=num) (obj:=obj) file).
Proof. unfold parse_name. count_steps. Qed.

Lemma only_parse_name P file : only P (parse_name (num:=num) (obj:=obj) file).
Proof. unfold parse_name. only_steps. Qed.

Lemma keeps_files_parse_name file :
  keeps_files (parse_name (num:=num) (obj:=obj) file).
Proof. unfold parse_name. files_steps. Qed.

Lemma decodes_to_prediction p : decodes 0 (to_prediction (obj:=obj) args p).
Proof.
  unfold to_prediction. cbv zeta.
  apply decodes_bind_0; [|intros cs; apply decodes_ret].
  apply decodes_traverse. intros ix. apply decodes_getitem.
Qed.

Lemma only_to_prediction P p : only P (to_prediction (obj:=obj) args p).
Proof.
  unfold to_prediction. cbv zeta.
  apply only_bind; [|intros cs; apply only_ret].
  apply only_traverse. intros ix. apply only_getitem.
Qed.

Lemma keeps_files_to_prediction p : keeps_files (to_prediction (obj:=obj) args p).
Proof.
  unfold to_prediction. cbv zeta.
  apply keeps_files_bind; [|intros cs; apply keeps_files_ret].
  apply keeps_files_traverse. intros ix. apply keeps_files_getitem.
Qed.

(** Every file that is processed to the end has gone through exactly one
    decoder invocation. *)
Lemma decodes_process_file model vf lm noise device root file :
  decodes 1 (process_file env args model vf lm noise device root file).
Proof.
  unfold process_file. cbv zeta.
  pose proof decodes_parse_name. pose proof decodes_to_prediction.
  repeat (apply decodes_bind_0; [solve [count_steps] | intros ?];
          repeat match goal with
                 | |- decodes _ (match ?x with (_, _) => _ end) => destruct x
                 end).
  apply (decodes_bind 1 0); [apply decodes_decode_step | intros [? ?]].
  count_steps.
Qed.

Lemma keeps_files_process_file model vf lm noise device root file :
  keeps_files (process_file env args model vf lm noise device root file).
Proof.
  unfold process_file. cbv zeta.
  pose proof keeps_files_parse_name. pose proof keeps_files_to_prediction.
  pose proof keeps_files_decode_step.
  files_steps.
Qed.

Lemma only_process_file_invalid model vf lm noise device root file :
  invalid_decoding args ->
  only no_decode (process_file env args model vf lm noise device root file).
Proof.
  intros Hinv. unfold process_file. cbv zeta.
  pose proof (only_parse_name no_decode).
  pose proof (only_to_prediction no_decode).
  pose proof (fun lm ob lens => only_decode_step_invalid lm ob lens Hinv).
  only_steps.
Qed.


(** With an unsupported decode mode no file is processed to the end. *)
Lemma process_file_invalid_not_ok model vf lm noise device root file w :
  invalid_decoding args ->
  is_ok (fst (process_file env args model vf lm noise device root file w)) = false.
Proof.
  intros Hinv.
  destruct (process_file env args model vf lm noise device root file w)
    as [[r|e] w'] eqn:Hrun; [|reflexivity].
  exfalso. pose proof (decodes_process_file _ _ _ _ _ _ _ _ _ _ Hrun) as Hcount.
  pose proof (only_process_file_invalid model vf lm noise device root file
                Hinv w) as [d [Htr Hall]].
  rewrite Hrun in Htr. cbn in Htr.
  rewrite (decode_count_app _ _ _ Htr) in Hcount.
  assert (Hnone : List.filter is_decode d = []).
  { clear -Hall. induction d as [|e d IH]; [reflexivity|].
    cbn in *. apply andb_prop in Hall as [He Hd].
    unfold no_decode in He. destruct (is_decode e); [discriminate|].
    apply IH, Hd. }
  rewrite Hnone in Hcount. cbn in Hcount. lia.
Qed.

Lemma print_run s w :
  print s w = (Ok tt, mkWorld (rng w) (stdout w ++ [s]) (trace w) (files w)).
Proof. reflexivity. Qed.

(** What a completed run of the loop body has gone through. *)
Lemma process_file_inv model vf lm noise device root file w model' row w' :
  process_file env args model vf lm noise device root file w
    = (Ok (model', row), w') ->
  let stem := PyStr.path_join root (PyStr.slice file None (Some (-4))) in
  exists sNum cNum cType inp inpLen ib lens ib' ob p pl pred ws wd,
    parse_name file w = (Ok (sNum, cNum, cType), w) /\
    (exists g g',
        prepare_main_input env (stem ++ ".wav") (stem ++ ".npy") noise
          (MAIN_REQ_INPUT_LENGTH args) (CHAR_TO_INDEX args) (NOISE_SNR_DB args)
          (STFT_WINDOW args, STFT_WIN_LENGTH args, STFT_OVERLAP args)
          (VIDEO_FPS args) g = (Ok (inp, inpLen), g')) /\
    (exists g g', collate_fn env [(inp, inpLen)] g = (Ok (ib, lens), g')) /\
    (exists g g', forward env model' ib' g = (Ok ob, g')) /\
    trace ws = (trace w ++
                [EPreprocess stem;
                 EPrepareInput (stem ++ ".wav") (stem ++ ".npy") noise;
                 ECollate [(inp, inpLen)];
                 EModuleEval;
                 EForward ib'])%list /\
    files ws = files w /\
    decode_step env args lm ob lens ws = (Ok (p, pl), wd) /\
    to_prediction args p wd = (Ok pred, wd) /\
    row = [sNum; cNum; cType; pred] /\
    trace w' = trace wd /\ files w' = files wd /\ rng w' = rng wd.
Proof.
  intros Hrun stem. unfold process_file in Hrun. cbv zeta in Hrun.
  fold stem in Hrun.
  apply bind_ok_inv in Hrun as ([[sNum cNum] cType] & w1 & Hparse & Hrun).
  pose proof (parse_name_pure file w) as Hpure. rewrite Hparse in Hpure.
  cbn in Hpure. subst w1.
  apply bind_ok_inv in Hrun as ([] & w1 & Hpre & Hrun).
  apply ext_ok_inv in Hpre as (g1 & Hpre & ->).
  apply bind_ok_inv in Hrun as ([inp inpLen] & w2 & Hprep & Hrun).
  apply ext_ok_inv in Hprep as (g2 & Hprep & ->).
  apply bind_ok_inv in Hrun as ([ib lens] & w3 & Hcol & Hrun).
  apply ext_ok_inv in Hcol as (g3 & Hcol & ->).
  apply bind_ok_inv in Hrun as (ib' & w4 & Hmode & Hrun).
  assert (Hw4 : w4 = mkWorld g3 (stdout w)
                       (((trace w ++ [EPreprocess stem]) ++
                         [EPrepareInput (stem ++ ".wav") (stem ++ ".npy") noise])
                        ++ [ECollate [(inp, inpLen)]])%list (files w)).
  { repeat match type of Hmode with
           | (if ?c then _ else _) _ = _ => destruct c
           end;
      first [ injection Hmode as _ <-; reflexivity | discriminate Hmode ]. }
  clear Hmode. subst w4.
  apply bind_ok_inv in Hrun as (m' & w5 & Heval & Hrun).
  apply ext_ok_inv in Heval as (g4 & Heval & ->).
  apply bind_ok_inv in Hrun as (ob & w6 & Hfwd & Hrun).
  apply ext_ok_inv in Hfwd as (g5 & Hfwd & ->).
  apply bind_ok_inv in Hrun as ([p pl] & wd & Hdec & Hrun).
  apply bind_ok_inv in Hrun as (pred & wp & Hpred & Hrun).
  assert (wp = wd) as ->.
  { rewrite to_prediction_run in Hpred. injection Hpred as _ <-. reflexivity. }
  unfold bind in Hrun. rewrite !print_run in Hrun. cbn in Hrun.
  injection Hrun as <- <- <-.
  exists sNum, cNum, cType, inp, inpLen, ib, lens, ib', ob, p, pl, pred.
  eexists. exists wd.
  split; [exact Hparse|].
  split; [eexists _, _; exact Hprep|].
  split; [eexists _, _; exact Hcol|].
  split; [eexists _, _; exact Hfwd|].
  split; [|split; [|split; [exact Hdec|]]].
  - cbn. rewrite <- !app_assoc. reflexivity.
  - reflexivity.
  - repeat split; try reflexivity. exact Hpred.
Qed.

Lemma only_load_module P ev ctor path device :
  P ev = true -> P (ETorchLoad path device) = true ->
  P ELoadStateDict = true -> P (EModuleTo device) = true ->
  only P (load_module env ev ctor path device).
Proof.
  intros H1 H2 H3 H4. unfold load_module.
  repeat (apply only_bind; [apply only_ext; assumption | intros ?]).
  apply only_ext; assumption.
Qed.

Lemma keeps_files_load_module ev ctor path device :
  keeps_files (load_module env ev ctor path device).
Proof. unfold load_module. files_steps. Qed.

Lemma only_seeds P s :
  P (ESeedNumpy s) = true -> P (ESeedTorch s) = true ->
  only P (@np_random_seed num obj s) /\ only P (@torch_manual_seed num obj s).
Proof.
  intros H1 H2. split; intros w; cbn.
  - exists [ESeedNumpy s]. cbn. rewrite H1. split; reflexivity.
  - exists [ESeedTorch s]. cbn. rewrite H2. split; reflexivity.
Qed.

Lemma only_write_csv P name rows : only P (@write_csv num obj name rows).
Proof.
  intros w. exists []. split; [cbn; symmetry; apply app_nil_r | reflexivity].
Qed.

Lemma only_walk_files P vf lm noise device root :
  (forall model file,
      only P (process_file env args model vf lm noise device root file)) ->
  forall st fs, only P (walk_files env args vf lm noise device root st fs).
Proof.
  intros Hfile st fs. unfold walk_files. apply only_foldM.
  intros [model rows] file. destruct (PyStr.endswith file ".mp4").
  - apply only_bind; [apply Hfile | intros [model' row]]. apply only_ret.
  - apply only_ret.
Qed.

(** The whole run only makes calls satisfying [P], as soon as the setup
    calls do and the loop body does. *)
Lemma only_run_demo P device trained :
  admits_setup P ->
  (forall model vf lmobj noise device root file,
      only P (process_file env args model vf
                (if negb (USE_LM args) then None else Some lmobj)
                noise device root file)) ->
  only P (run_demo env args device trained).
Proof.
  intros Hsetup Hfile. unfold run_demo. cbv zeta.
  apply only_bind; [apply only_print | intros _].
  apply only_bind; [apply only_print | intros _].
  apply only_bind;
    [apply only_load_module; apply Hsetup; reflexivity | intros model].
  apply only_bind;
    [apply only_load_module; apply Hsetup; reflexivity | intros vf].
  apply only_bind;
    [apply only_load_module; apply Hsetup; reflexivity | intros lmobj].
  apply only_bind;
    [destruct (TEST_DEMO_NOISY args); [apply only_raise | apply only_ret]
    | intros noise].
  apply only_bind; [apply only_print | intros _].
  apply only_bind; [apply only_print | intros _].
  apply only_bind.
  - apply only_foldM. intros st [[root dirs] fs].
    apply only_walk_files. intros model0 file. apply Hfile.
  - intros [model1 rows].
    apply only_bind; [apply only_print | intros _]. apply only_write_csv.
Qed.

Lemma only_main P :
  admits_setup P ->
  (forall model vf lmobj noise device root file,
      only P (process_file env args model vf
                (if negb (USE_LM args) then None else Some lmobj)
                noise device root file)) ->
  only P (main env args).
Proof.
  intros Hsetup Hfile. unfold main.
  destruct (only_seeds P (SEED args)) as [Hnp Htorch];
    [apply Hsetup; reflexivity | apply Hsetup; reflexivity |].
  apply only_bind; [exact Hnp | intros _].
  apply only_bind; [exact Htorch | intros _]. cbv zeta.
  destruct (TRAINED_MODEL_FILE args) as [trained|]; [|apply only_print].
  apply only_run_demo; assumption.
Qed.

Lemma only_process_file_any model vf lm noise device root file :
  only (fun _ => true)
       (process_file env args model vf lm noise device root file).
Proof.
  unfold process_file. cbv zeta.
  pose proof (only_parse_name (fun _ => true)).
  pose proof (only_to_prediction (fun _ => true)).
  assert (forall lm ob lens,
             only (fun _ => true) (decode_step env args lm ob lens)).
  { intros. unfold decode_step. cbv zeta. only_steps. }
  only_steps.
Qed.

(** A collaborator that never raises lets the run go on. *)
Lemma ext_never_raises {A} (e : event num obj) (f : ext_fn A) w :
  never_raises f -> exists a w1, ext e f w = (Ok a, w1).
Proof.
  intros Hf. unfold ext. specialize (Hf (rng w)).
  destruct (f (rng w)) as [[a|x] g]; [|discriminate Hf]. eauto.
Qed.

Lemma load_module_never_raises ev ctor path device w :
  never_raises ctor ->
  (forall p d, never_raises (torch_load env p d)) ->
  (forall m s, never_raises (load_state_dict env m s)) ->
  (forall m d, never_raises (module_to env m d)) ->
  exists m w1, load_module env ev ctor path device w = (Ok m, w1).
Proof.
  intros Hc Hl Hs Ht. unfold load_module.
  destruct (ext_never_raises ev ctor w Hc) as (m0 & w0 & E0).
  rewrite (bind_run_ok _ _ _ _ _ E0).
  destruct (ext_never_raises (ETorchLoad path device) _ w0 (Hl path device))
    as (sd & w1 & E1).
  rewrite (bind_run_ok _ _ _ _ _ E1).
  destruct (ext_never_raises ELoadStateDict _ w1 (Hs m0 sd)) as (m1 & w2 & E2).
  rewrite (bind_run_ok _ _ _ _ _ E2).
  apply ext_never_raises, Ht.
Qed.

(** The dictionary of line 146 has exactly the four search parameters. *)
Lemma search_params_dom (w : Z) (a b t : num) :
  dom (<["threshProb" := VNum t]>
       (<["beta" := VNum b]>
       (<["alpha" := VNum a]>
       (<["beamWidth" := VInt w]> (∅ : gmap string (cfgval num))))))
  = ({[ "beamWidth"; "alpha"; "beta"; "threshProb" ]} : gset string).
Proof. rewrite !dom_insert_L, dom_empty_L. set_solver. Qed.

(** What a completed decode step has done. *)
Lemma decode_step_ok_inv lm ob lens ws p pl wd :
  decode_step env args lm ob lens ws = (Ok (p, pl), wd) ->
  exists eosIx,
    CHAR_TO_INDEX args !! "<EOS>" = Some eosIx /\
    stdout wd = stdout ws /\ files wd = files ws /\
    ((TEST_DEMO_DECODING args = "greedy" /\
      ctc_greedy_decode env ob lens eosIx (rng ws) = (Ok (p, pl), rng wd) /\
      trace wd = (trace ws ++ [EGreedy ob lens eosIx])%list)
     \/
     (TEST_DEMO_DECODING args = "search" /\
      exists spaceIx,
        CHAR_TO_INDEX args !! " " = Some spaceIx /\
        let beamSearchParams : gmap string (cfgval num) :=
          <["threshProb" := VNum (THRESH_PROBABILITY args)]>
          (<["beta" := VNum (LENGTH_PENALTY_BETA args)]>
          (<["alpha" := VNum (LM_WEIGHT_ALPHA args)]>
          (<["beamWidth" := VInt (BEAM_WIDTH args)]> ∅))) in
        ctc_search_decode env ob lens beamSearchParams spaceIx eosIx lm (rng ws)
          = (Ok (p, pl), rng wd) /\
        trace wd =
          (trace ws ++ [ESearch ob lens beamSearchParams spaceIx eosIx lm])%list)).
Proof.
  unfold decode_step.
  destruct (String.eqb _ "greedy") eqn:Hg.
  { apply String.eqb_eq in Hg. intros Hrun.
    apply bind_ok_inv in Hrun as (eosIx & w1 & Hget & Hrun).
    unfold getitem in Hget.
    destruct (CHAR_TO_INDEX args !! "<EOS>") as [e|] eqn:Heos;
      [|discriminate Hget].
    injection Hget as -> <-.
    apply ext_ok_inv in Hrun as (g & Hcall & ->). cbn.
    exists eosIx. repeat split. left. repeat split; assumption. }
  destruct (String.eqb _ "search") eqn:Hs.
  { apply String.eqb_eq in Hs. cbv zeta. intros Hrun.
    apply bind_ok_inv in Hrun as (spaceIx & w1 & Hget1 & Hrun).
    unfold getitem in Hget1.
    destruct (CHAR_TO_INDEX args !! " ") as [e1|] eqn:Hspace;
      [|discriminate Hget1].
    injection Hget1 as -> <-.
    apply bind_ok_inv in Hrun as (eosIx & w2 & Hget2 & Hrun).
    unfold getitem in Hget2.
    destruct (CHAR_TO_INDEX args !! "<EOS>") as [e2|] eqn:Heos;
      [|discriminate Hget2].
    injection Hget2 as -> <-.
    apply ext_ok_inv in Hrun as (g & Hcall & ->). cbn.
    exists eosIx. repeat split. right. split; [assumption|].
    exists spaceIx. repeat split; assumption. }
  intros Hrun. discriminate Hrun.
Qed.






(** Lines 43-44: after the two seeding calls both generators are fixed. *)
Lemma bind_seeds {B} (k : M num obj B) s w :
  bind (np_random_seed s) (fun _ => bind (torch_manual_seed s) (fun _ => k)) w
  = k (mkWorld (mkRng s s) (stdout w)
               ((trace w ++ [ESeedNumpy s]) ++ [ESeedTorch s])%list (files w)).
Proof. reflexivity. Qed.

Lemma never_ok_bind {A B} (m : M num obj A) (k : A -> M num obj B) :
  (forall a, never_ok (k a)) -> never_ok (bind m k).
Proof.
  intros Hk w. unfold bind. destruct (m w) as [[a|e] w1]; [apply Hk|reflexivity].
Qed.

Lemma never_ok_bind_raise {A B} e (k : A -> M num obj B) :
  never_ok (bind (raise e) k).
Proof. intros w. reflexivity. Qed.

End DriverFacts.

(** ** Facts about the decoding contract *)

Section ContractFacts.
Context {num : Type} `{Numeric num}.
Variable BLANK : Z.









(** Without a scorer the successor of a beam does not look at the
    parameters at all. *)
Lemma extend_no_lm p p' spaceIx eosIx b c pc :
  CTC.extend BLANK None p spaceIx eosIx b c pc =
  CTC.extend BLANK None p' spaceIx eosIx b c pc.
Proof. reflexivity. Qed.













End ContractFacts.

(** * Properties of the driver *)

Section DriverClaims.
Context {num obj : Type}.
Variable env : Env num obj.
Variable args : Args num.
Implicit Types (w : World num obj) (lm noise : option obj).

(** C10: when [args["TRAINED_MODEL_FILE"]] is [None], [main] seeds the two
    generators, prints that the model-file path is not specified and returns
    normally: no collaborator is called (nothing is preprocessed or decoded)
    and no file is written. *)
Theorem no_model_file_only_prints w :
  TRAINED_MODEL_FILE args = None ->
  main env args w =
  (Ok tt,
   mkWorld (mkRng (SEED args) (SEED args))
           (stdout w ++ [PyStr.nl ++ "Path to trained model file not specified."
                         ++ PyStr.nl])
           (trace w ++ [ESeedNumpy (SEED args); ESeedTorch (SEED args)])%list
           (files w)).
Proof.
  intros Hnone. unfold main, bind. cbn. rewrite Hnone. cbn.
  rewrite <- app_assoc. reflexivity.
Qed.

(** C9: for a file name ending in [.mp4], the loop body starts by indexing
    the name at 7, 13 and -6.  With fewer than 14 characters the indexing
    raises IndexError before anything else happens: no collaborator has been
    called for the file and the run ends there.  With 14 characters or more
    the three indexings succeed. *)
Theorem short_name_raises_index_error model vf lm noise device root file w :
  PyStr.endswith file ".mp4" = true ->
  (PyStr.len file < 14 ->
   process_file env args model vf lm noise device root file w
     = (Raise IndexError, w) /\
   forall rows rest,
     walk_files env args vf lm noise device root (model, rows) (file :: rest) w
       = (Raise IndexError, w)) /\
  (14 <= PyStr.len file ->
   exists sNum c13 c6 cNum cType,
     PyStr.index file 7 = Some sNum /\
     PyStr.index file 13 = Some c13 /\
     PyStr.index file (-6) = Some c6 /\
     parse_name (num:=num) (obj:=obj) file w = (Ok (sNum, cNum, cType), w)).
Proof.
  intros Hmp4. split.
  - intros Hshort.
    assert (Hbody : process_file env args model vf lm noise device root file w
                    = (Raise IndexError, w)).
    { unfold process_file.
      apply bind_run_raise, parse_name_short, Hshort. }
    split; [exact Hbody|]. intros rows rest.
    unfold walk_files. cbn. rewrite Hmp4.
    apply bind_run_raise. apply bind_run_raise. exact Hbody.
  - intros Hlong.
    destruct (parse_name_long file w Hlong) as (sNum & cNum & cType & H7 & Hp).
    destruct (index_in_range file 13) as [c13 H13]; [lia|].
    destruct (index_in_range file (-6)) as [c6 H6]; [lia|].
    exists sNum, c13, c6, cNum, cType. repeat split; assumption.
Qed.

(** C8: with [args["TEST_DEMO_NOISY"]] true and a trained model file given,
    [main] never gets past the noise-file read: [wavfile] is not bound, so
    once the three networks are loaded the run ends in NameError.  In this
    configuration no sample is preprocessed, no decoder is called and no
    file is written. *)
Theorem noisy_run_fails_on_wavfile trained :
  TEST_DEMO_NOISY args = true ->
  TRAINED_MODEL_FILE args = Some trained ->
  only no_decode_no_preprocess (main env args) /\
  keeps_files (main env args) /\
  never_ok (main env args) /\
  (loads_never_raise env ->
   forall w, fst (main env args w) = Raise (NameError "wavfile")).
Proof.
  intros Hnoisy Hfile. unfold main, run_demo. rewrite Hfile, Hnoisy. cbv zeta.
  split; [|split; [|split]].
  - destruct (only_seeds (num:=num) (obj:=obj) no_decode_no_preprocess
                (SEED args)) as [Hnp Ht];
      [reflexivity | reflexivity |].
    apply only_bind; [exact Hnp | intros _].
    apply only_bind; [exact Ht | intros _].
    do 2 (apply only_bind; [apply only_print | intros _]).
    do 3 (apply only_bind;
          [apply only_load_module; reflexivity | intros ?]).
    apply only_bind_raise.
  - apply keeps_files_bind; [intros w; reflexivity | intros _].
    apply keeps_files_bind; [intros w; reflexivity | intros _].
    do 2 (apply keeps_files_bind; [apply keeps_files_print | intros _]).
    do 3 (apply keeps_files_bind; [apply keeps_files_load_module | intros ?]).
    apply keeps_files_bind_raise.
  - do 7 (apply never_ok_bind; intros ?). apply never_ok_bind_raise.
  - intros (Hav & Hvf & Hlm & Hload & Hsd & Hto) w.
    unfold bind at 1 2 3 4. cbn [np_random_seed torch_manual_seed print].
    match goal with
    | |- context [load_module env ENewAVNet ?c ?p ?d] =>
        destruct (load_module_never_raises env ENewAVNet c p d
                    (mkWorld (mkRng (SEED args) (SEED args))
                       ((stdout w ++ [PyStr.nl ++ "Trained Model File: " ++ trained])
                          ++ [PyStr.nl ++ "Demo Directory: " ++ DEMO_DIRECTORY args])
                       ((trace w ++ [ESeedNumpy (SEED args)])
                          ++ [ESeedTorch (SEED args)])%list
                       (files w)))
          as (model & w1 & E1); auto
    end.
    cbn in E1 |- *.
    rewrite (bind_run_ok _ _ _ _ _ E1).
    match goal with
    | |- context [load_module env ENewVisualFrontend ?c ?p ?d] =>
        destruct (load_module_never_raises env ENewVisualFrontend c p d w1)
          as (vf & w2 & E2); auto
    end.
    rewrite (bind_run_ok _ _ _ _ _ E2).
    match goal with
    | |- context [load_module env ENewLRS2CharLM ?c ?p ?d] =>
        destruct (load_module_never_raises env ENewLRS2CharLM c p d w2)
          as (lmobj & w3 & E3); auto
    end.
    rewrite (bind_run_ok _ _ _ _ _ E3). reflexivity.
Qed.


(** C2: for every file processed to the end, the decoder that ran received
    the posterior batch the network returned for this file and the
    valid-length batch the collation returned.  In "greedy" mode the greedy
    decoder is called with these two and the index of "<EOS>"; in "search"
    mode the beam-search decoder is called with these two, a dictionary whose
    keys are exactly beamWidth, alpha, beta and threshProb (bound to the
    configured values), the index of " ", the index of "<EOS>" and the
    language model (or None).  Either returns a label sequence and a length
    sequence; the prediction of the row is computed from the former. *)
Theorem decoder_receives_batch_and_indices
    model vf lm noise device root file w model' row w' :
  process_file env args model vf lm noise device root file w
    = (Ok (model', row), w') ->
  exists ib' ob lens eosIx p pl pre,
    (exists g g', forward env model' ib' g = (Ok ob, g')) /\
    (exists inp inpLen ib g g',
        collate_fn env [(inp, inpLen)] g = (Ok (ib, lens), g')) /\
    CHAR_TO_INDEX args !! "<EOS>" = Some eosIx /\
    forallb no_decode pre = true /\
    (exists sNum cNum cType pred,
        row = [sNum; cNum; cType; pred] /\
        fst (to_prediction args p w') = Ok pred) /\
    ((TEST_DEMO_DECODING args = "greedy" /\
      (exists g g', ctc_greedy_decode env ob lens eosIx g = (Ok (p, pl), g')) /\
      trace w' = (trace w ++ pre ++ [EGreedy ob lens eosIx])%list)
     \/
     (TEST_DEMO_DECODING args = "search" /\
      exists spaceIx (params : gmap string (cfgval num)),
        CHAR_TO_INDEX args !! " " = Some spaceIx /\
        dom params = ({[ "beamWidth"; "alpha"; "beta"; "threshProb" ]}
                      : gset string) /\
        params !! "beamWidth" = Some (VInt (BEAM_WIDTH args)) /\
        params !! "alpha" = Some (VNum (LM_WEIGHT_ALPHA args)) /\
        params !! "beta" = Some (VNum (LENGTH_PENALTY_BETA args)) /\
        params !! "threshProb" = Some (VNum (THRESH_PROBABILITY args)) /\
        (exists g g', ctc_search_decode env ob lens params spaceIx eosIx lm g
                      = (Ok (p, pl), g')) /\
        trace w' =
          (trace w ++ pre ++ [ESearch ob lens params spaceIx eosIx lm])%list)).
Proof.
  intros Hrun.
  destruct (process_file_inv env args _ _ _ _ _ _ _ _ _ _ _ Hrun)
    as (sNum & cNum & cType & inp & inpLen & ib & lens & ib' & ob & p & pl
        & pred & ws & wd & Hparse & Hprep & Hcol & Hfwd & Htrace & Hfiles
        & Hdec & Hpred & Hrow & Htr' & Hf' & Hr').
  destruct (decode_step_ok_inv env args _ _ _ _ _ _ _ Hdec)
    as (eosIx & Heos & _ & _ & Hmode).
  exists ib', ob, lens, eosIx, p, pl.
  eexists.
  split; [exact Hfwd|].
  split; [destruct Hcol as (g & g' & Hcol); eauto 6|].
  split; [exact Heos|].
  split; [|split].
  2:{ exists sNum, cNum, cType, pred. split; [exact Hrow|].
      rewrite to_prediction_run. rewrite to_prediction_run in Hpred.
      injection Hpred as ->. reflexivity. }
  2:{ destruct Hmode as [(Hg & Hcall & Htd) | (Hs & spaceIx & Hspace & Hcall & Htd)].
      - left. split; [exact Hg|]. split; [eauto|].
        rewrite Htr', Htd, Htrace, <- app_assoc. reflexivity.
      - right. split; [exact Hs|]. exists spaceIx. eexists.
        split; [exact Hspace|].
        split; [apply search_params_dom|].
        do 4 (split; [reflexivity|]).
        split; [eauto|].
        rewrite Htr', Htd, Htrace, <- app_assoc. reflexivity. }
  reflexivity.
Qed.

End DriverClaims.

Section ContractClaims.
Context {num obj : Type} `{Numeric num}.
Variable BLANK : Z.
Variable scoreWord : obj -> CTC.Scorer (num:=num).
Variable env : Env num obj.
Variable args : Args num.
Implicit Types (w : World num obj) (lm noise : option obj).

Local Abbreviation env' := (with_spec_decoders BLANK scoreWord env).









End ContractClaims.

(** * The properties on the sample instance *)

Section Instances.
Import Sample.

(** The greedy decoder on the arg-max path [A, A, BLANK, B, EOS]: the repeat
    collapses, the blank is dropped, the scan stops at EOS. *)
Example greedy_collapses_and_stops :
  CTC.greedy_sample BLANK 4 posteriors 5 = Ok ([2; 3; 4], 2).
Proof. vm_compute. reflexivity. Qed.

(** The greedy decoder on the arg-max path [A, BLANK, A]: both letters
    survive. *)
Example greedy_keeps_separated_repeats :
  CTC.greedy_sample BLANK 4 posteriors_repeat 3 = Ok ([2; 2; 4], 2).
Proof. vm_compute. reflexivity. Qed.

(** The whole run on the sample directory, in greedy mode. *)
Example sample_run_writes_one_row :
  fst (main env args_greedy w0) = Ok tt /\
  files (snd (main env args_greedy w0)) !! "predictions-noise-10db.csv"
    = Some [["1"; "12"; "jumble"; "AB"]].
Proof. split; vm_compute; reflexivity. Qed.



Lemma decoder_receives_batch_witness :
  process_file env args_search "AVNet" "VisualFrontend" None None "cpu" "demo"
               "speaker1clip12jumble.mp4" w0
  = (Ok ("AVNet", ["1"; "12"; "jumble"; "AB"]),
     snd (process_file env args_search "AVNet" "VisualFrontend" None None
                       "cpu" "demo" "speaker1clip12jumble.mp4" w0)) /\
  exists ob lens eosIx,
    CHAR_TO_INDEX args_search !! "<EOS>" = Some eosIx /\
    List.filter is_decode
      (trace (snd (process_file env args_search "AVNet" "VisualFrontend"
                     None None "cpu" "demo" "speaker1clip12jumble.mp4" w0)))
    = [ESearch ob lens
         (<["threshProb" := VNum (THRESH_PROBABILITY args_search)]>
          (<["beta" := VNum (LENGTH_PENALTY_BETA args_search)]>
          (<["alpha" := VNum (LM_WEIGHT_ALPHA args_search)]>
          (<["beamWidth" := VInt (BEAM_WIDTH args_search)]> ∅))))
         1 eosIx None].
Proof.
  assert (Hrun :
    process_file env args_search "AVNet" "VisualFrontend" None None "cpu"
                 "demo" "speaker1clip12jumble.mp4" w0
    = (Ok ("AVNet", ["1"; "12"; "jumble"; "AB"]),
       snd (process_file env args_search "AVNet" "VisualFrontend" None None
                         "cpu" "demo" "speaker1clip12jumble.mp4" w0)))
    by (vm_compute; reflexivity).
  split; [exact Hrun|].
  destruct (decoder_receives_batch_and_indices env args_search _ _ _ _ _ _ _
              _ _ _ _ Hrun)
    as (ib' & ob & lens & eosIx & p & pl & pre & _ & _ & Heos & _ & _ & _).
  exists [posteriors], [5], eosIx. split; [exact Heos|].
  vm_compute in Heos. injection Heos as <-. vm_compute. reflexivity.
Defined.








Lemma sample_loads_never_raise : loads_never_raise env.
Proof. repeat split; intros; intros g; reflexivity. Qed.

Lemma noisy_run_witness :
  TEST_DEMO_NOISY args_noisy = true /\
  TRAINED_MODEL_FILE args_noisy = trained /\
  loads_never_raise env /\
  fst (main env args_noisy w0) = Raise (NameError "wavfile") /\
  files (snd (main env args_noisy w0)) = files w0.
Proof.
  destruct (noisy_run_fails_on_wavfile env args_noisy
              "/weights/audio-visual.pt" eq_refl eq_refl)
    as (_ & Hfiles & _ & Hfail).
  split; [reflexivity|]. split; [reflexivity|].
  split; [exact sample_loads_never_raise|].
  split; [apply Hfail, sample_loads_never_raise | apply Hfiles].
Defined.

Lemma short_name_witness :
  PyStr.endswith "clip.mp4" ".mp4" = true /\
  PyStr.len "clip.mp4" < 14 /\
  process_file env args_greedy "AVNet" "VisualFrontend" None None "cpu" "demo"
               "clip.mp4" w0 = (Raise IndexError, w0) /\
  14 <= PyStr.len "speaker1clip12jumble.mp4" /\
  exists cNum cType,
    parse_name (num:=tnum) (obj:=string) "speaker1clip12jumble.mp4" w0
    = (Ok ("1", cNum, cType), w0).
Proof.
  split; [reflexivity|]. split; [reflexivity|]. split.
  - destruct (short_name_raises_index_error env args_greedy "AVNet"
                "VisualFrontend" None None "cpu" "demo" "clip.mp4" w0 eq_refl)
      as [Hshort _].
    destruct (Hshort eq_refl) as [Hbody _]. exact Hbody.
  - split; [discriminate|].
    destruct (short_name_raises_index_error env args_greedy "AVNet"
                "VisualFrontend" None None "cpu" "demo"
                "speaker1clip12jumble.mp4" w0 eq_refl) as [_ Hlong].
    assert (Hlen : 14 <= PyStr.len "speaker1clip12jumble.mp4")
      by discriminate.
    destruct (Hlong Hlen) as (sNum & c13 & c6 & cNum & cType & H7 & _ & _ & Hp).
    vm_compute in H7. injection H7 as <-.
    exists cNum, cType. exact Hp.
Defined.

Lemma no_model_file_witness :
  TRAINED_MODEL_FILE args_no_model = None /\
  fst (main env args_no_model w0) = Ok tt /\
  files (snd (main env args_no_model w0)) = files w0 /\
  List.filter (fun e => negb (is_seed e)) (trace (snd (main env args_no_model w0)))
  = [].
Proof.
  split; [reflexivity|].
  rewrite (no_model_file_only_prints env args_no_model w0 eq_refl).
  repeat split.
Defined.

End Instances.

(** * Further properties of the driver *)

(** ** More facts about Python strings *)

Section MoreStringFacts.


Lemma substring_length (s : string) (n m : nat) :
  String.length (String.substring n m s) = Nat.min m (String.length s - n).
Proof.
  revert n m. induction s as [|c s IH]; intros n m; cbn.
  - destruct n, m; reflexivity.
  - destruct n as [|n].
    + destruct m as [|m]; cbn; [reflexivity|]. rewrite IH.
      rewrite Nat.sub_0_r. reflexivity.
    + rewrite IH. reflexivity.
Qed.



Lemma index_single (s : string) (i : Z) (c : string) :
  PyStr.index s i = Some c -> String.length c = 1%nat.
Proof.
  unfold PyStr.index. destruct (_ || _); [discriminate|].
  destruct (String.get _ s); [|discriminate]. intros [= <-]. reflexivity.
Qed.

(** Lines 96: the two comparisons let exactly the ten digits through. *)
Lemma digit_test (a : ascii) :
  PyStr.le (String a "") "9" && PyStr.le "0" (String a "")
  = existsb (String.eqb (String a "")) digits.
Proof. destruct a as [[] [] [] [] [] [] [] []]; vm_compute; reflexivity. Qed.

Lemma digit_test_iff (c : string) :
  String.length c = 1%nat ->
  PyStr.le c "9" && PyStr.le "0" c = true <-> In c digits.
Proof.
  intros Hlen. destruct c as [|a [|b c]]; try discriminate Hlen.
  rewrite digit_test, existsb_exists. split.
  - intros (d & Hd & Heq). apply String.eqb_eq in Heq. subst d. exact Hd.
  - intros Hin. exists (String a ""). split; [exact Hin|]. apply String.eqb_refl.
Qed.


End MoreStringFacts.

(** ** Names, paths and predictions *)

Section NamesAndPredictions.
Context {num obj : Type}.
Variable env : Env num obj.
Variable args : Args num.
Implicit Types (w : World num obj).



(** X2: for a name of 14 characters or more the three fields are read as
    follows.  The speaker number is the one character at index 7.  The clip
    number is the two characters at 12-13 exactly when the character at 13
    is one of the ten decimal digits, and the one character at 12 otherwise.
    The clip type is "jumble" when the sixth character from the end is "l",
    "base" when it is "s", and otherwise the four characters before the
    extension. *)
Theorem name_fields file w :
  14 <= PyStr.len file ->
  exists sNum c13 c6 cNum cType,
    PyStr.index file 7 = Some sNum /\
    PyStr.index file 13 = Some c13 /\
    PyStr.index file (-6) = Some c6 /\
    parse_name (num:=num) (obj:=obj) file w = (Ok (sNum, cNum, cType), w) /\
    String.length sNum = 1%nat /\
    (In c13 digits ->
     cNum = PyStr.slice file (Some 12) (Some 14) /\ String.length cNum = 2%nat) /\
    (~ In c13 digits ->
     PyStr.index file 12 = Some cNum /\ String.length cNum = 1%nat) /\
    (c6 = "l" -> cType = "jumble") /\
    (c6 <> "l" -> c6 = "s" -> cType = "base") /\
    (c6 <> "l" -> c6 <> "s" ->
     cType = PyStr.slice file (Some (-8)) (Some (-4)) /\
     String.length cType = 4%nat).
Proof.
  intros Hlen.
  destruct (index_in_range file 7) as [c7 H7]; [lia|].
  destruct (index_in_range file 13) as [c13 H13]; [lia|].
  destruct (index_in_range file 12) as [c12 H12]; [lia|].
  destruct (index_in_range file (-6)) as [c6 H6]; [lia|].
  pose proof (digit_test_iff c13 (index_single _ _ _ H13)) as Hdigit.
  assert (Hl2 : String.length (PyStr.slice file (Some 12) (Some 14)) = 2%nat).
  { unfold PyStr.slice, PyStr.clamp. cbn [Z.ltb Z.compare].
    rewrite substring_length. unfold PyStr.len in *. lia. }
  assert (Hl4 : String.length (PyStr.slice file (Some (-8)) (Some (-4))) = 4%nat).
  { unfold PyStr.slice, PyStr.clamp. cbn [Z.ltb Z.compare].
    rewrite substring_length. unfold PyStr.len in *. lia. }
  exists c7, c13, c6.
  unfold parse_name, bind, str_index, ret. rewrite H7, H13, H6, H12.
  destruct (PyStr.le c13 "9") eqn:H9;
    [destruct (PyStr.le "0" c13) eqn:H0|];
    cbn in Hdigit |- *;
    (destruct (String.eqb c6 "l") eqn:Hcl;
     [apply String.eqb_eq in Hcl | apply String.eqb_neq in Hcl;
      destruct (String.eqb c6 "s") eqn:Hcs;
      [apply String.eqb_eq in Hcs | apply String.eqb_neq in Hcs]]);
    eexists _, _;
    (split; [reflexivity|]); (split; [reflexivity|]); (split; [reflexivity|]);
    (split; [reflexivity|]);
    (split; [exact (index_single _ _ _ H7)|]);
    (split; [intros Hin; first [ split; [reflexivity | exact Hl2]
                               | apply Hdigit in Hin; discriminate Hin ]|]);
    (split; [intros Hnot; first [ split; [reflexivity
                                         | exact (index_single _ _ _ H12)]
                                | exfalso; apply Hnot, Hdigit; reflexivity ]|]);
    (split; [intros Heq; first [reflexivity | congruence]|]);
    (split; [intros Hne Heq; first [reflexivity | congruence]|]);
    intros Hne1 Hne2; first [ split; [reflexivity | exact Hl4] | congruence ].
Qed.

Lemma lookup_all_none (d : gmap Z string) ixs :
  lookup_all d ixs = None <-> exists ix, In ix ixs /\ d !! ix = None.
Proof.
  induction ixs as [|i ixs IH]; cbn.
  - split; [discriminate | intros (ix & [] & _)].
  - destruct (d !! i) as [c|] eqn:Hi.
    + destruct (lookup_all d ixs) as [cs|].
      * split; [discriminate|]. intros (ix & [<- | Hin] & Hnone).
        -- congruence.
        -- assert (Hex : exists ix, In ix ixs /\ d !! ix = None) by eauto.
           apply IH in Hex. discriminate Hex.
      * split; [|reflexivity]. intros _.
        destruct (proj1 IH eq_refl) as (ix & Hin & Hnone). eauto.
    + split; [|reflexivity]. intros _. exists i. eauto.
Qed.

Lemma lookup_all_some (d : gmap Z string) ixs cs :
  lookup_all d ixs = Some cs <->
  Forall2 (fun ix c => d !! ix = Some c) ixs cs.
Proof.
  revert cs. induction ixs as [|i ixs IH]; intros cs; cbn.
  - split; [intros [= <-]; constructor | intros Hall; inversion Hall; reflexivity].
  - split.
    + destruct (d !! i) as [c|] eqn:Hi; [|discriminate].
      destruct (lookup_all d ixs) as [cs'|] eqn:Hrest; [|discriminate].
      intros [= <-]. constructor; [exact Hi | apply IH; reflexivity].
    + intros Hall. inversion Hall as [|? c ? cs' Hc Hrest]; subst.
      rewrite Hc. apply IH in Hrest. rewrite Hrest. reflexivity.
Qed.

(** X3: the prediction string is computed from all indices but the last,
    which is dropped without being looked at (whether or not it is the end
    marker): an empty or one-element sequence gives the empty string.  The
    computation raises KeyError exactly when one of the remaining indices is
    missing from [INDEX_TO_CHAR]; otherwise it is the concatenation of their
    symbols, in order.  It changes nothing in the process. *)
Theorem prediction_reads_all_but_last_index :
  (forall l x y w,
      to_prediction (obj:=obj) args (l ++ [x]) w
      = to_prediction args (l ++ [y]) w) /\
  (forall x w, to_prediction (obj:=obj) args [] w = (Ok "", w) /\
               to_prediction (obj:=obj) args [x] w = (Ok "", w)) /\
  (forall p w, snd (to_prediction (obj:=obj) args p w) = w) /\
  (forall p w,
      fst (to_prediction (obj:=obj) args p w) = Raise KeyError <->
      exists ix, In ix (removelast p) /\ INDEX_TO_CHAR args !! ix = None) /\
  (forall p w chars,
      Forall2 (fun ix c => INDEX_TO_CHAR args !! ix = Some c)
              (removelast p) chars ->
      to_prediction (obj:=obj) args p w = (Ok (PyStr.join chars), w)).
Proof.
  split; [|split; [|split; [|split]]].
  - intros l x y w. rewrite !to_prediction_run, !removelast_last. reflexivity.
  - intros x w. split; reflexivity.
  - intros p w. rewrite to_prediction_run. reflexivity.
  - intros p w. rewrite to_prediction_run. cbn [fst].
    rewrite <- lookup_all_none.
    destruct (lookup_all _ _); split; intros Heq;
      first [discriminate Heq | reflexivity].
  - intros p w chars Hall. rewrite to_prediction_run.
    apply lookup_all_some in Hall. rewrite Hall. reflexivity.
Qed.

End NamesAndPredictions.

(** ** The prediction file *)

Section PredictionFile.
Context {num obj : Type}.
Variable env : Env num obj.
Variable args : Args num.
Implicit Types (w : World num obj) (lm noise : option obj).

Lemma writerows_fold (name : string) (rows : list csv_row) :
  forall (fs : gmap string (list csv_row)) acc,
    fs !! name = Some acc ->
    fold_left (fun fs row => <[name := (default [] (fs !! name) ++ [row])%list]> fs)
              rows fs
    = <[name := (acc ++ rows)%list]> fs.
Proof.
  induction rows as [|r rows IH]; intros fs acc Hacc; cbn.
  - rewrite app_nil_r. symmetry. apply insert_id, Hacc.
  - rewrite Hacc. cbn.
    rewrite (IH _ (acc ++ [r])%list) by apply lookup_insert_eq.
    rewrite insert_insert_eq, <- app_assoc. reflexivity.
Qed.

Lemma write_csv_run name rows w :
  write_csv name rows w
  = (Ok tt, mkWorld (rng w) (stdout w) (trace w) (<[name := rows]> (files w))).
Proof.
  unfold write_csv.
  rewrite (writerows_fold name rows _ []) by apply lookup_insert_eq.
  rewrite insert_insert_eq. reflexivity.
Qed.

(** X4: opening the prediction file for writing and writing the rows one by
    one leaves the file with exactly these rows, in order, whatever it held
    before; no other file, and nothing else in the process, is touched. *)
Theorem csv_file_holds_exactly_the_rows name rows w :
  fst (write_csv name rows w) = Ok tt /\
  files (snd (write_csv name rows w)) !! name = Some rows /\
  (forall other, other <> name ->
                 files (snd (write_csv name rows w)) !! other
                 = files w !! other) /\
  trace (snd (write_csv name rows w)) = trace w /\
  stdout (snd (write_csv name rows w)) = stdout w.
Proof.
  rewrite write_csv_run. cbn. split; [reflexivity|].
  split; [apply lookup_insert_eq|].
  split; [|split; reflexivity].
  intros other Hother. apply lookup_insert_ne. congruence.
Qed.

Lemma writes_csv_or_nothing_bind {A B} (m : M num obj A) (k : A -> M num obj B) :
  keeps_files m -> (forall a, writes_csv_or_nothing (k a)) ->
  writes_csv_or_nothing (bind m k).
Proof.
  intros Hm Hk w. specialize (Hm w). unfold bind.
  destruct (m w) as [[a|e] w1]; cbn in Hm |- *.
  - specialize (Hk a w1). rewrite Hm in Hk. exact Hk.
  - exact Hm.
Qed.

Lemma keeps_files_walk_files vf lm noise device root st fs :
  keeps_files (walk_files env args vf lm noise device root st fs).
Proof.
  unfold walk_files. apply keeps_files_foldM. intros [model rows] file.
  destruct (PyStr.endswith file ".mp4"); [|apply keeps_files_ret].
  apply keeps_files_bind; [apply keeps_files_process_file | intros [m r]].
  apply keeps_files_ret.
Qed.

Lemma writes_csv_or_nothing_run_demo device trained :
  writes_csv_or_nothing (run_demo env args device trained).
Proof.
  unfold run_demo. cbv zeta.
  do 2 (apply writes_csv_or_nothing_bind; [apply keeps_files_print | intros _]).
  do 3 (apply writes_csv_or_nothing_bind;
        [apply keeps_files_load_module | intros ?]).
  apply writes_csv_or_nothing_bind;
    [destruct (TEST_DEMO_NOISY args);
     [apply keeps_files_raise | apply keeps_files_ret] | intros noise].
  do 2 (apply writes_csv_or_nothing_bind; [apply keeps_files_print | intros _]).
  apply writes_csv_or_nothing_bind.
  - apply keeps_files_foldM. intros st [[root dirs] fs].
    apply keeps_files_walk_files.
  - intros [model rows].
    apply writes_csv_or_nothing_bind; [apply keeps_files_print | intros _].
    intros w. rewrite write_csv_run. cbn. exists rows. reflexivity.
Qed.


Lemma parse_name_const file :
  exists r, forall w, parse_name (num:=num) (obj:=obj) file w = (r, w).
Proof.
  unfold parse_name, bind, str_index, ret, raise.
  repeat match goal with
         | |- context [match PyStr.index ?s ?i with _ => _ end] =>
             destruct (PyStr.index s i)
         | |- context [if ?c then _ else _] => destruct c
         end; eexists; intros w; reflexivity.
Qed.

(** The rows one directory adds: one per video, in order. *)
Lemma walk_files_ok vf lm noise device root fs :
  forall model rows w model' rows' w',
    walk_files env args vf lm noise device root (model, rows) fs w
      = (Ok (model', rows'), w') ->
    exists new,
      rows' = (rows ++ new)%list /\
      Forall2 (row_for (num:=num) (obj:=obj)) (List.filter is_video fs) new /\
      decode_count w' = (decode_count w + length new)%nat.
Proof.
  induction fs as [|file fs IH]; intros model rows w model' rows' w' Hrun.
  - injection Hrun as <- <- <-. exists []. rewrite app_nil_r.
    split; [reflexivity|]. split; [constructor | cbn; lia].
  - unfold walk_files in Hrun. cbn [foldM] in Hrun.
    apply bind_ok_inv in Hrun as ([model1 rows1] & w1 & Hstep & Hrest).
    change (walk_files env args vf lm noise device root (model1, rows1) fs w1
            = (Ok (model', rows'), w')) in Hrest.
    apply IH in Hrest as (new & -> & Hrows & Hcount).
    cbn [List.filter]. unfold is_video at 1.
    destruct (PyStr.endswith file ".mp4").
    + apply bind_ok_inv in Hstep as ([m r] & w2 & Hfile & Hret).
      injection Hret as <- <- <-.
      pose proof (decodes_process_file env args _ _ _ _ _ _ _ _ _ _ Hfile)
        as Hone.
      destruct (process_file_inv env args _ _ _ _ _ _ _ _ _ _ _ Hfile)
        as (sNum & cNum & cType & _ & _ & _ & _ & _ & _ & _ & _ & pred & _ & _
            & Hparse & _ & _ & _ & _ & _ & _ & _ & Hrow & _).
      exists (r :: new). rewrite <- app_assoc. split; [reflexivity|].
      split; [|cbn; lia].
      constructor; [|exact Hrows].
      exists sNum, cNum, cType, pred. split; [|exact Hrow].
      destruct (parse_name_const file) as (r0 & Hconst).
      intros w0. rewrite Hconst. rewrite Hconst in Hparse.
      injection Hparse as ->. reflexivity.
    + injection Hstep as <- <- <-. exists new.
      split; [reflexivity|]. split; [exact Hrows | exact Hcount].
Qed.

(** The rows the whole walk adds. *)
Lemma walk_dirs_ok vf lm noise device walk :
  forall model rows w model' rows' w',
    foldM (fun st '(root, dirs, fs) =>
             walk_files env args vf lm noise device root st fs)
          (model, rows) walk w
      = (Ok (model', rows'), w') ->
    exists new,
      rows' = (rows ++ new)%list /\
      Forall2 (row_for (num:=num) (obj:=obj)) (videos walk) new /\
      decode_count w' = (decode_count w + length new)%nat.
Proof.
  induction walk as [|[[root dirs] fs] walk IH];
    intros model rows w model' rows' w' Hrun.
  - injection Hrun as <- <- <-. exists []. rewrite app_nil_r.
    split; [reflexivity|]. split; [constructor | cbn; lia].
  - cbn [foldM] in Hrun.
    apply bind_ok_inv in Hrun as ([model1 rows1] & w1 & Hdir & Hrest).
    apply walk_files_ok in Hdir as (new1 & -> & Hrows1 & Hcount1).
    apply IH in Hrest as (new2 & -> & Hrows2 & Hcount2).
    exists (new1 ++ new2)%list. rewrite <- app_assoc.
    split; [reflexivity|]. split.
    + unfold videos. cbn [flat_map snd]. apply Forall2_app; assumption.
    + rewrite length_app. lia.
Qed.

Lemma quiet_step {A} (m : M num obj A) w a w1 :
  keeps_files m -> decodes 0 m -> m w = (Ok a, w1) ->
  files w1 = files w /\ decode_count w1 = decode_count w.
Proof.
  intros Hf Hd Hrun. split.
  - specialize (Hf w). rewrite Hrun in Hf. exact Hf.
  - rewrite (Hd _ _ _ Hrun). lia.
Qed.

Lemma decodes_load_module ev ctor path device :
  is_decode ev = false -> decodes 0 (load_module env ev ctor path device).
Proof.
  intros Hev. unfold load_module.
  apply decodes_bind_0; [apply decodes_ext_quiet, Hev | intros ?].
  count_steps.
Qed.

(** X6: when a run with a trained model file completes, the prediction file
    holds one row per [.mp4] file of the walk, in the order of the walk, and
    nothing for any other file; each row has four fields, the first three
    being the speaker number, clip number and clip type read from the name
    of its video.  The run has made exactly one decoder call per row, and
    its last printed line is "Demo Completed.". *)
Theorem one_row_per_video trained w w' :
  TRAINED_MODEL_FILE args = Some trained ->
  main env args w = (Ok tt, w') ->
  exists rows,
    files w' = <["predictions-noise-10db.csv" := rows]> (files w) /\
    Forall2 (row_for (num:=num) (obj:=obj))
            (videos (os_walk env (DEMO_DIRECTORY args))) rows /\
    decode_count w' = (decode_count w + length rows)%nat /\
    last (stdout w') = Some ("Demo Completed." ++ PyStr.nl).
Proof.
  intros Hfile Hrun. unfold main in Hrun. rewrite Hfile in Hrun.
  cbv zeta in Hrun. rewrite bind_seeds in Hrun.
  set (ws := mkWorld _ _ _ _) in Hrun.
  assert (Hws : files ws = files w /\ decode_count ws = decode_count w).
  { split; [reflexivity|]. unfold decode_count, ws. cbn.
    rewrite !List.filter_app. cbn. rewrite !app_nil_r. reflexivity. }
  clearbody ws. destruct Hws as [Hf0 Hd0].
  unfold run_demo in Hrun. cbv zeta in Hrun.
  apply bind_ok_inv in Hrun as ([] & w1 & H1 & Hrun).
  apply quiet_step in H1 as [Hf1 Hd1];
    [|apply keeps_files_print | apply decodes_print].
  apply bind_ok_inv in Hrun as ([] & w2 & H2 & Hrun).
  apply quiet_step in H2 as [Hf2 Hd2];
    [|apply keeps_files_print | apply decodes_print].
  apply bind_ok_inv in Hrun as (model & w3 & H3 & Hrun).
  apply quiet_step in H3 as [Hf3 Hd3];
    [|apply keeps_files_load_module | apply decodes_load_module; reflexivity].
  apply bind_ok_inv in Hrun as (vf & w4 & H4 & Hrun).
  apply quiet_step in H4 as [Hf4 Hd4];
    [|apply keeps_files_load_module | apply decodes_load_module; reflexivity].
  apply bind_ok_inv in Hrun as (lmobj & w5 & H5 & Hrun).
  apply quiet_step in H5 as [Hf5 Hd5];
    [|apply keeps_files_load_module | apply decodes_load_module; reflexivity].
  apply bind_ok_inv in Hrun as (noise & w6 & H6 & Hrun).
  apply quiet_step in H6 as [Hf6 Hd6];
    [| destruct (TEST_DEMO_NOISY args);
       [apply keeps_files_raise | apply keeps_files_ret]
     | destruct (TEST_DEMO_NOISY args);
       [apply decodes_raise | apply decodes_ret]].
  apply bind_ok_inv in Hrun as ([] & w7 & H7 & Hrun).
  apply quiet_step in H7 as [Hf7 Hd7];
    [|apply keeps_files_print | apply decodes_print].
  apply bind_ok_inv in Hrun as ([] & w8 & H8 & Hrun).
  apply quiet_step in H8 as [Hf8 Hd8];
    [|apply keeps_files_print | apply decodes_print].
  apply bind_ok_inv in Hrun as ([model' rows] & w9 & Hwalk & Hrun).
  assert (Hf9 : files w9 = files w8).
  { match type of Hwalk with
    | ?m w8 = _ => assert (Hk : keeps_files m)
    end.
    { apply keeps_files_foldM. intros st [[root dirs] fs].
      apply keeps_files_walk_files. }
    specialize (Hk w8). rewrite Hwalk in Hk. exact Hk. }
  apply walk_dirs_ok in Hwalk as (new & Hnew & Hrows & Hcount).
  cbn in Hnew. subst rows.
  unfold bind in Hrun. rewrite print_run, write_csv_run in Hrun.
  injection Hrun as <-. cbn.
  exists new. split; [congruence|]. split; [exact Hrows|].
  split; [|apply last_snoc].
  unfold decode_count in *. cbn. lia.
Qed.

End PredictionFile.

(** ** Setting the run up *)

Section Setup.
Context {num obj : Type}.
Variable env : Env num obj.
Variable args : Args num.
Implicit Types (w : World num obj) (P : event num obj -> bool).

Lemma only_bind_ret P {A B} (a : A) (k : A -> M num obj B) :
  only P (k a) -> only P (bind (ret a) k).
Proof. intros Hk w. exact (Hk w). Qed.

Lemma only_decode_step_free P lm ob lens :
  (forall e, is_decode e = true -> P e = true) ->
  only P (decode_step env args lm ob lens).
Proof.
  intros HP. unfold decode_step. cbv zeta.
  repeat first
    [ solve [auto with run_only]
    | apply only_ext; apply HP; reflexivity
    | apply only_bind; [ | intros ? ]
    | match goal with
      | |- only _ (if ?c then _ else _) => destruct c
      end ].
Qed.

(** The whole run only makes calls satisfying [P], as soon as the seeding,
    the loads for the chosen device and the loop body without noise do. *)
Lemma only_main_on_device P :
  P (ESeedNumpy (SEED args)) = true -> P (ESeedTorch (SEED args)) = true ->
  P ENewAVNet = true -> P ENewVisualFrontend = true ->
  P ENewLRS2CharLM = true -> P ELoadStateDict = true ->
  (forall path, P (ETorchLoad path (device_of env)) = true) ->
  P (EModuleTo (device_of env)) = true ->
  (forall model vf lm root file,
      only P (process_file env args model vf lm None (device_of env) root file)) ->
  only P (main env args).
Proof.
  intros Hnp Htorch Hav Hvf Hlm Hsd Hload Hto Hfile. unfold main.
  destruct (only_seeds (num:=num) (obj:=obj) P (SEED args) Hnp Htorch)
    as [Hs1 Hs2].
  apply only_bind; [exact Hs1 | intros _].
  apply only_bind; [exact Hs2 | intros _]. cbv zeta.
  fold (device_of env).
  destruct (TRAINED_MODEL_FILE args) as [trained|]; [|apply only_print].
  unfold run_demo. cbv zeta.
  do 2 (apply only_bind; [apply only_print | intros _]).
  do 3 (apply only_bind; [apply only_load_module; auto | intros ?]).
  destruct (TEST_DEMO_NOISY args); [apply only_bind_raise|].
  apply only_bind_ret.
  do 2 (apply only_bind; [apply only_print | intros _]).
  apply only_bind.
  - apply only_foldM. intros st [[root dirs] fs].
    apply only_walk_files. intros model0 file. apply Hfile.
  - intros [model1 rows].
    apply only_bind; [apply only_print | intros _]. apply only_write_csv.
Qed.

(** X7: every weight file is read, and every network moved, for the device
    chosen at the start of the run: "cuda" when it is available, "cpu"
    otherwise. *)
Theorem loads_use_the_chosen_device :
  only (on_device (device_of env)) (main env args).
Proof.
  apply only_main_on_device; try reflexivity.
  - intros path. cbn. apply String.eqb_refl.
  - cbn. apply String.eqb_refl.
  - intros model vf lm root file. unfold process_file. cbv zeta.
    pose proof (only_parse_name (num:=num) (obj:=obj)
                  (on_device (device_of env))).
    pose proof (only_to_prediction (obj:=obj) args
                  (on_device (device_of env))).
    assert (forall lm ob lens,
               only (on_device (device_of env))
                    (decode_step env args lm ob lens)).
    { intros. apply only_decode_step_free. intros e He.
      destruct e; try discriminate He; reflexivity. }
    only_steps.
Qed.

(** X8: the input preparation is never given a noise array, whatever
    [args["TEST_DEMO_NOISY"]] says: when it is true the run stops before the
    loop, when it is false the noise is [None]. *)
Theorem noise_is_never_passed :
  only without_noise (main env args).
Proof.
  apply only_main_on_device; try reflexivity.
  intros model vf lm root file. unfold process_file. cbv zeta.
  pose proof (only_parse_name (num:=num) (obj:=obj) without_noise).
  pose proof (only_to_prediction (obj:=obj) args without_noise).
  assert (forall lm ob lens,
             only without_noise (decode_step env args lm ob lens)).
  { intros. apply only_decode_step_free. intros e He.
    destruct e; try discriminate He; reflexivity. }
  only_steps.
Qed.

Lemma load_module_ok_trace ev ctor path device w m w1 :
  load_module env ev ctor path device w = (Ok m, w1) ->
  trace w1 = (trace w ++ [ev; ETorchLoad path device; ELoadStateDict;
                          EModuleTo device])%list.
Proof.
  unfold load_module. intros Hrun.
  apply bind_ok_inv in Hrun as (m0 & wa & Ha & Hrun).
  apply ext_ok_inv in Ha as (ga & _ & ->).
  apply bind_ok_inv in Hrun as (sd & wb & Hb & Hrun).
  apply ext_ok_inv in Hb as (gb & _ & ->).
  apply bind_ok_inv in Hrun as (m1 & wc & Hc & Hrun).
  apply ext_ok_inv in Hc as (gc & _ & ->).
  apply ext_ok_inv in Hrun as (gd & _ & ->).
  cbn. rewrite <- !app_assoc. reflexivity.
Qed.

(** X9: with a trained model file given and loads that do not raise, the run
    starts with the same fourteen calls: the two seedings, then for the
    audio-visual network, the visual frontend and the language model, in
    this order, construction, reading of the weights, loading of the state
    and move to the device.  The network's weights are read from
    [CODE_DIRECTORY] immediately followed by the trained model file name,
    the other two from their configured paths as they are; the language
    model is built and loaded whether or not [USE_LM] is set. *)
Theorem setup_call_sequence trained w :
  TRAINED_MODEL_FILE args = Some trained ->
  loads_never_raise env ->
  exists rest,
    trace (snd (main env args w))
    = (trace w ++
       [ESeedNumpy (SEED args); ESeedTorch (SEED args);
        ENewAVNet;
        ETorchLoad (CODE_DIRECTORY args ++ trained) (device_of env);
        ELoadStateDict; EModuleTo (device_of env);
        ENewVisualFrontend;
        ETorchLoad (TRAINED_FRONTEND_FILE args) (device_of env);
        ELoadStateDict; EModuleTo (device_of env);
        ENewLRS2CharLM;
        ETorchLoad (TRAINED_LM_FILE args) (device_of env);
        ELoadStateDict; EModuleTo (device_of env)] ++ rest)%list.
Proof.
  intros Hfile (Hav & Hvf & Hlm & Hload & Hsd & Hto).
  unfold main. rewrite Hfile. cbv zeta. rewrite bind_seeds.
  fold (device_of env). unfold run_demo. cbv zeta.
  unfold bind at 1 2. rewrite !print_run.
  cbn [rng stdout trace files].
  match goal with
  | |- context [bind (load_module env ENewAVNet ?c ?p ?d) ?k ?w0] =>
      destruct (load_module_never_raises env ENewAVNet c p d w0)
        as (model & w1 & E1); auto;
      rewrite (bind_run_ok _ _ _ _ _ E1);
      apply load_module_ok_trace in E1
  end.
  match goal with
  | |- context [bind (load_module env ENewVisualFrontend ?c ?p ?d) ?k w1] =>
      destruct (load_module_never_raises env ENewVisualFrontend c p d w1)
        as (vf & w2 & E2); auto;
      rewrite (bind_run_ok _ _ _ _ _ E2);
      apply load_module_ok_trace in E2
  end.
  match goal with
  | |- context [bind (load_module env ENewLRS2CharLM ?c ?p ?d) ?k w2] =>
      destruct (load_module_never_raises env ENewLRS2CharLM c p d w2)
        as (lmobj & w3 & E3); auto;
      rewrite (bind_run_ok _ _ _ _ _ E3);
      apply load_module_ok_trace in E3
  end.
  match goal with
  | |- context [snd (?k w3)] => assert (Hk : only (fun _ => true) k)
  end.
  { destruct (TEST_DEMO_NOISY args); [apply only_bind_raise|].
    apply only_bind_ret.
    do 2 (apply only_bind; [apply only_print | intros _]).
    apply only_bind.
    - apply only_foldM. intros st [[root dirs] fs].
      apply only_walk_files. intros model0 file.
      apply only_process_file_any.
    - intros [model1 rows].
      apply only_bind; [apply only_print | intros _]. apply only_write_csv. }
  destruct (Hk w3) as (rest & Hrest & _).
  exists rest. rewrite Hrest, E3, E2, E1. cbn [trace].
  rewrite <- !app_assoc. reflexivity.
Qed.

Lemma never_ok_ext {A} (e : event num obj) (f : ext_fn A) :
  always_raises f -> never_ok (ext e f).
Proof.
  intros Hf w. unfold ext. specialize (Hf (rng w)).
  destruct (f (rng w)) as [r g]. exact Hf.
Qed.

Lemma never_ok_bind_l {A B} (m : M num obj A) (k : A -> M num obj B) :
  never_ok m -> never_ok (bind m k).
Proof.
  intros Hm w. specialize (Hm w). unfold bind.
  destruct (m w) as [[a|e] w1]; [discriminate Hm | reflexivity].
Qed.

Lemma never_ok_raise {A} e : never_ok (@raise num obj A e).
Proof. intros w. reflexivity. Qed.

Lemma only_bind_never_ok P {A B} (m : M num obj A) (k : A -> M num obj B) :
  only P m -> never_ok m -> only P (bind m k).
Proof.
  intros Hm Hnever w. specialize (Hm w). specialize (Hnever w). unfold bind.
  destruct (m w) as [[a|e] w1]; [discriminate Hnever | exact Hm].
Qed.

Lemma keeps_files_bind_never_ok {A B} (m : M num obj A) (k : A -> M num obj B) :
  keeps_files m -> never_ok m -> keeps_files (bind m k).
Proof.
  intros Hm Hnever w. specialize (Hm w). specialize (Hnever w). unfold bind.
  destruct (m w) as [[a|e] w1]; [discriminate Hnever | exact Hm].
Qed.

(** X10: the language model's weights are needed even when [USE_LM] is
    false.  With a trained model file given, if reading the language-model
    file raises, the run never completes, whatever [USE_LM] says; it stops
    before any sample is preprocessed or decoded and writes no file. *)
Theorem language_model_file_is_always_needed trained :
  TRAINED_MODEL_FILE args = Some trained ->
  always_raises (torch_load env (TRAINED_LM_FILE args) (device_of env)) ->
  never_ok (main env args) /\
  only no_decode_no_preprocess (main env args) /\
  keeps_files (main env args).
Proof.
  intros Hfile Hraise. unfold main, run_demo. rewrite Hfile. cbv zeta.
  fold (device_of env).
  assert (Hlm : never_ok (load_module env ENewLRS2CharLM (LRS2CharLM env)
                            (TRAINED_LM_FILE args) (device_of env))).
  { unfold load_module. apply never_ok_bind. intros m.
    apply never_ok_bind_l, never_ok_ext, Hraise. }
  split; [|split].
  - do 6 (apply never_ok_bind; intros ?). apply never_ok_bind_l, Hlm.
  - destruct (only_seeds (num:=num) (obj:=obj) no_decode_no_preprocess
                (SEED args)) as [Hnp Ht]; [reflexivity | reflexivity |].
    apply only_bind; [exact Hnp | intros _].
    apply only_bind; [exact Ht | intros _].
    do 2 (apply only_bind; [apply only_print | intros _]).
    do 2 (apply only_bind; [apply only_load_module; reflexivity | intros ?]).
    apply only_bind_never_ok; [apply only_load_module; reflexivity | exact Hlm].
  - apply keeps_files_bind; [intros w; reflexivity | intros _].
    apply keeps_files_bind; [intros w; reflexivity | intros _].
    do 2 (apply keeps_files_bind; [apply keeps_files_print | intros _]).
    do 2 (apply keeps_files_bind; [apply keeps_files_load_module | intros ?]).
    apply keeps_files_bind_never_ok; [apply keeps_files_load_module | exact Hlm].
Qed.

End Setup.

(** ** Modes and failures *)

Section ModesAndFailures.
Context {num obj : Type}.
Variable env : Env num obj.
Variable args : Args num.
Implicit Types (w : World num obj) (P : event num obj -> bool)
  (lm noise : option obj).

Lemma bind_ret_run {A B} (a : A) (k : A -> M num obj B) w :
  bind (ret a) k w = k a w.
Proof. reflexivity. Qed.

Lemma bind_ext_never_raises {A B} (e : event num obj) (f : ext_fn A)
    (k : A -> M num obj B) w :
  never_raises f ->
  exists a g,
    f (rng w) = (Ok a, g) /\
    bind (ext e f) k w
    = k a (mkWorld g (stdout w) (trace w ++ [e])%list (files w)).
Proof.
  intros Hf. specialize (Hf (rng w)). unfold bind, ext.
  destruct (f (rng w)) as [[a|x] g]; [|discriminate Hf].
  exists a, g. split; reflexivity.
Qed.

(** Runs the collaborator call at the head of the computation. *)
Ltac run_ext H a g Hcall :=
  match goal with
  | |- context [bind (ext ?e ?f) ?k ?w] =>
      let Heq := fresh "Heq" in
      destruct (bind_ext_never_raises e f k w ltac:(apply H))
        as (a & g & Hcall & Heq);
      rewrite Heq; clear Heq; cbv beta iota
  end.

Lemma mode_tests_fail :
  invalid_operation args ->
  String.eqb (TEST_DEMO_MODE args) "AO" = false /\
  String.eqb (TEST_DEMO_MODE args) "VO" = false /\
  String.eqb (TEST_DEMO_MODE args) "AV" = false.
Proof.
  intros (Hao & Hvo & Hav). repeat split; apply String.eqb_neq; assumption.
Qed.

Lemma never_ok_walk_files vf lm noise device root fs :
  (forall model file,
      never_ok (process_file env args model vf lm noise device root file)) ->
  List.filter is_video fs <> [] ->
  forall st, never_ok (walk_files env args vf lm noise device root st fs).
Proof.
  intros Hfile. unfold walk_files.
  induction fs as [|file fs IH]; intros Hv [model rows].
  - contradiction Hv. reflexivity.
  - cbn [foldM]. cbn [List.filter] in Hv. unfold is_video in Hv at 1.
    destruct (PyStr.endswith file ".mp4").
    + apply never_ok_bind_l, never_ok_bind_l, Hfile.
    + apply never_ok_bind. intros st. apply IH. exact Hv.
Qed.

Lemma never_ok_walk_dirs vf lm noise device walk :
  (forall model root file,
      never_ok (process_file env args model vf lm noise device root file)) ->
  videos walk <> [] ->
  forall st,
    never_ok (foldM (fun st '(root, dirs, fs) =>
                       walk_files env args vf lm noise device root st fs)
                    st walk).
Proof.
  intros Hfile. induction walk as [|[[root dirs] fs] walk IH]; intros Hv st.
  - contradiction Hv. reflexivity.
  - cbn [foldM]. unfold videos in Hv. cbn [flat_map snd] in Hv.
    destruct (List.filter is_video fs) as [|f0 fs0] eqn:Hfs.
    + apply never_ok_bind. intros st'. apply IH. exact Hv.
    + apply never_ok_bind_l. apply never_ok_walk_files.
      * intros model file. apply Hfile.
      * rewrite Hfs. discriminate.
Qed.

(** When no file can be processed to the end, a run that finds a video
    never completes. *)
Lemma never_ok_main_with_video trained :
  TRAINED_MODEL_FILE args = Some trained ->
  (forall model vf lm noise device root file,
      never_ok (process_file env args model vf lm noise device root file)) ->
  videos (os_walk env (DEMO_DIRECTORY args)) <> [] ->
  never_ok (main env args).
Proof.
  intros Hfile Hbody Hv. unfold main, run_demo. rewrite Hfile. cbv zeta.
  do 10 (apply never_ok_bind; intros ?).
  apply never_ok_bind_l. apply never_ok_walk_dirs; [|exact Hv].
  intros model root file. apply Hbody.
Qed.

Lemma keeps_files_failed_main trained :
  TRAINED_MODEL_FILE args = Some trained ->
  never_ok (main env args) -> keeps_files (main env args).
Proof.
  intros Hfile Hnever w.
  assert (Hw : writes_csv_or_nothing (main env args)).
  { unfold main. rewrite Hfile. cbv zeta.
    apply writes_csv_or_nothing_bind; [intros w0; reflexivity | intros _].
    apply writes_csv_or_nothing_bind; [intros w0; reflexivity | intros _].
    apply writes_csv_or_nothing_run_demo. }
  specialize (Hw w). specialize (Hnever w).
  destruct (fst (main env args w)); [discriminate Hnever | exact Hw].
Qed.

Lemma never_ok_process_file_bad_mode model vf lm noise device root file :
  invalid_operation args ->
  never_ok (process_file env args model vf lm noise device root file).
Proof.
  intros Hbad. destruct (mode_tests_fail Hbad) as (Hao & Hvo & Hav).
  unfold process_file. cbv zeta.
  apply never_ok_bind; intros [[sNum cNum] cType]; cbv beta iota.
  apply never_ok_bind; intros [].
  apply never_ok_bind; intros [inp inpLen]; cbv beta iota.
  apply never_ok_bind; intros [ib lens]; cbv beta iota.
  apply never_ok_bind_l. rewrite Hao, Hvo, Hav.
  apply never_ok_bind. intros _. apply never_ok_raise.
Qed.

Lemma only_process_file_bad_mode model vf lm noise device root file :
  invalid_operation args ->
  only no_network (process_file env args model vf lm noise device root file).
Proof.
  intros Hbad. destruct (mode_tests_fail Hbad) as (Hao & Hvo & Hav).
  unfold process_file. cbv zeta.
  apply only_bind; [apply only_parse_name | intros [[sNum cNum] cType]];
    cbv beta iota.
  apply only_bind; [apply only_ext; reflexivity | intros []].
  apply only_bind; [apply only_ext; reflexivity | intros [inp inpLen]];
    cbv beta iota.
  apply only_bind; [apply only_ext; reflexivity | intros [ib lens]];
    cbv beta iota.
  rewrite Hao, Hvo, Hav. apply only_bind_never_ok.
  - apply only_bind; [apply only_print | intros _; apply only_raise].
  - apply never_ok_bind. intros _. apply never_ok_raise.
Qed.

(** X11: when [args["TEST_DEMO_MODE"]] is none of "AO", "VO" and "AV", no
    file is processed to the end, and the whole run never puts the network
    in evaluation mode, never runs it and never calls a decoder. *)
Theorem invalid_operation_mode_never_runs_the_network :
  invalid_operation args ->
  (forall model vf lm noise device root file,
      never_ok (process_file env args model vf lm noise device root file)) /\
  only no_network (main env args).
Proof.
  intros Hbad. split.
  - intros. apply never_ok_process_file_bad_mode, Hbad.
  - apply only_main_on_device; try reflexivity.
    intros. apply only_process_file_bad_mode, Hbad.
Qed.

(** X12: with an operation mode that is none of the three, the mode is
    looked at only after the sample has been preprocessed, its input
    prepared and collated: for a name of 14 characters or more, and when
    these three collaborators do not raise, the loop body prints "Invalid
    Operation Mode." and leaves through [exit()], having made exactly these
    three calls and written no file. *)
Theorem invalid_operation_mode_exits_after_collation
    model vf lm noise device root file w :
  invalid_operation args ->
  file_steps_never_raise env ->
  14 <= PyStr.len file ->
  let stem := PyStr.path_join root (PyStr.slice file None (Some (-4))) in
  exists inp inpLen w',
    process_file env args model vf lm noise device root file w
      = (Raise SystemExit, w') /\
    stdout w' = (stdout w ++ ["Invalid Operation Mode."])%list /\
    trace w' = (trace w ++
                [EPreprocess stem;
                 EPrepareInput (stem ++ ".wav") (stem ++ ".npy") noise;
                 ECollate [(inp, inpLen)]])%list /\
    files w' = files w.
Proof.
  intros Hbad (Hpre & Hprep & Hcol & _ & _) Hlong stem.
  destruct (mode_tests_fail Hbad) as (Hao & Hvo & Hav).
  unfold process_file. cbv zeta. fold stem.
  destruct (parse_name_long file w Hlong) as (sNum & cNum & cType & _ & Hp).
  rewrite (bind_run_ok _ _ _ _ _ Hp). cbv beta iota.
  run_ext Hpre u g1 H1. destruct u.
  run_ext Hprep a g2 H2. destruct a as [inp inpLen].
  cbv beta iota.
  run_ext Hcol b g3 H3. destruct b as [ib lens]. cbv beta iota.
  rewrite Hao, Hvo, Hav.
  exists inp, inpLen. eexists. split; [reflexivity|].
  cbn. rewrite <- !app_assoc. repeat split.
Qed.

(** X13: an unsupported decode mode is found out only after the network has
    run.  With a supported operation mode, a name of 14 characters or more
    and collaborators that do not raise, the loop body preprocesses the
    sample, prepares and collates its input, puts the network in evaluation
    mode and runs it, and only then prints "Invalid Decode Scheme" and
    leaves through [exit()], without a decoder call and without writing a
    file. *)
Theorem invalid_decode_mode_exits_after_the_network
    model vf lm noise device root file w :
  invalid_decoding args ->
  valid_operation args ->
  file_steps_never_raise env ->
  14 <= PyStr.len file ->
  let stem := PyStr.path_join root (PyStr.slice file None (Some (-4))) in
  exists inp inpLen inputBatch w',
    process_file env args model vf lm noise device root file w
      = (Raise SystemExit, w') /\
    stdout w' = (stdout w ++ ["Invalid Decode Scheme"])%list /\
    trace w' = (trace w ++
                [EPreprocess stem;
                 EPrepareInput (stem ++ ".wav") (stem ++ ".npy") noise;
                 ECollate [(inp, inpLen)];
                 EModuleEval;
                 EForward inputBatch])%list /\
    files w' = files w.
Proof.
  intros Hinv Hvalid (Hpre & Hprep & Hcol & Heval & Hfwd) Hlong stem.
  unfold process_file. cbv zeta. fold stem.
  destruct (parse_name_long file w Hlong) as (sNum & cNum & cType & _ & Hp).
  rewrite (bind_run_ok _ _ _ _ _ Hp). cbv beta iota.
  run_ext Hpre u g1 H1. destruct u.
  run_ext Hprep a g2 H2. destruct a as [inp inpLen].
  cbv beta iota.
  run_ext Hcol b g3 H3. destruct b as [ib lens]. cbv beta iota.
  destruct Hvalid as [Hm | [Hm | Hm]]; rewrite Hm;
    simpl (String.eqb _ _); cbv beta iota; rewrite bind_ret_run;
    run_ext Heval m' g4 H4; run_ext Hfwd ob g5 H5;
    (erewrite bind_run_raise by (apply decode_step_invalid, Hinv));
    exists inp, inpLen; eexists; eexists; (split; [reflexivity|]);
    cbn; rewrite <- !app_assoc; repeat split.
Qed.

Lemma decode_step_missing_index lm ob lens w :
  decoder_index_missing args ->
  decode_step env args lm ob lens w = (Raise KeyError, w).
Proof.
  unfold decode_step, getitem.
  intros [[Hmode Heos] | [Hmode Hmiss]]; rewrite Hmode;
    simpl (String.eqb _ _); cbv beta iota zeta.
  - rewrite Heos. reflexivity.
  - destruct Hmiss as [Hspace | Heos].
    + rewrite Hspace. reflexivity.
    + rewrite Heos. destruct (CHAR_TO_INDEX args !! " "); reflexivity.
Qed.

(** X14: when the index of a symbol the selected decoder is called with is
    missing from [CHAR_TO_INDEX] ("<EOS>" in greedy mode, " " or "<EOS>" in
    search mode), the decode step ends in KeyError before the decoder is
    called and leaves the process as it was; so no file is processed to the
    end and the whole run contains no decoder call. *)
Theorem missing_symbol_index_raises_key_error :
  decoder_index_missing args ->
  (forall lm ob lens w,
      decode_step env args lm ob lens w = (Raise KeyError, w)) /\
  (forall model vf lm noise device root file,
      never_ok (process_file env args model vf lm noise device root file)) /\
  only no_decode (main env args).
Proof.
  intros Hmiss.
  assert (Hnever : forall lm ob lens,
             never_ok (decode_step env args lm ob lens)).
  { intros lm ob lens w. rewrite decode_step_missing_index by exact Hmiss.
    reflexivity. }
  assert (Honly : forall lm ob lens,
             only no_decode (decode_step env args lm ob lens)).
  { intros lm ob lens w. rewrite decode_step_missing_index by exact Hmiss.
    apply extends_by_refl. }
  split; [|split].
  - intros. apply decode_step_missing_index, Hmiss.
  - intros. unfold process_file. cbv zeta.
    apply never_ok_bind; intros [[sNum cNum] cType]; cbv beta iota.
    apply never_ok_bind; intros [].
    apply never_ok_bind; intros [inp inpLen]; cbv beta iota.
    apply never_ok_bind; intros [ib lens]; cbv beta iota.
    do 3 (apply never_ok_bind; intros ?).
    apply never_ok_bind_l, Hnever.
  - apply only_main_on_device; try reflexivity.
    intros model vf lm root file. unfold process_file. cbv zeta.
    apply only_bind; [apply only_parse_name | intros [[sNum cNum] cType]];
      cbv beta iota.
    apply only_bind; [apply only_ext; reflexivity | intros []].
    apply only_bind; [apply only_ext; reflexivity | intros [inp inpLen]];
      cbv beta iota.
    apply only_bind; [apply only_ext; reflexivity | intros [ib lens]];
      cbv beta iota.
    apply only_bind; [only_steps | intros ib'].
    apply only_bind; [apply only_ext; reflexivity | intros m'].
    apply only_bind; [apply only_ext; reflexivity | intros ob].
    apply only_bind_never_ok; [apply Honly | apply Hnever].
Qed.

(** X15: a run that is misconfigured in its operation mode, in its decode
    mode or in the indices of the decoder's symbols never completes as soon
    as the walk finds one [.mp4] file, and then it writes no prediction
    file. *)
Theorem misconfigured_run_with_a_video_fails trained :
  TRAINED_MODEL_FILE args = Some trained ->
  videos (os_walk env (DEMO_DIRECTORY args)) <> [] ->
  invalid_operation args \/ invalid_decoding args \/
  decoder_index_missing args ->
  never_ok (main env args) /\ keeps_files (main env args).
Proof.
  intros Hfile Hv Hbad.
  assert (Hnever : never_ok (main env args)).
  { apply (never_ok_main_with_video _ Hfile); [|exact Hv].
    intros model vf lm noise device root file.
    destruct Hbad as [Hop | [Hdec | Hmiss]].
    - apply never_ok_process_file_bad_mode, Hop.
    - intros w. apply process_file_invalid_not_ok, Hdec.
    - unfold process_file. cbv zeta.
      apply never_ok_bind; intros [[sNum cNum] cType]; cbv beta iota.
      apply never_ok_bind; intros [].
      apply never_ok_bind; intros [inp inpLen]; cbv beta iota.
      apply never_ok_bind; intros [ib lens]; cbv beta iota.
      do 3 (apply never_ok_bind; intros ?).
      apply never_ok_bind_l. intros w.
      rewrite decode_step_missing_index by exact Hmiss. reflexivity. }
  split; [exact Hnever | exact (keeps_files_failed_main _ Hfile Hnever)].
Qed.

Lemma only_process_file_mode P mode model vf lm noise device root file :
  TEST_DEMO_MODE args = mode ->
  (forall e, no_network e = true -> P e = true) ->
  P EModuleEval = true ->
  (forall e, is_decode e = true -> P e = true) ->
  (forall a v,
      P (EForward
           (if String.eqb mode "AO" then (Some a, None)
            else if String.eqb mode "VO" then (None, Some v)
            else (Some a, Some v))) = true) ->
  only P (process_file env args model vf lm noise device root file).
Proof.
  intros Hmode Hquiet Heval Hdec Hfwd. unfold process_file. cbv zeta.
  apply only_bind; [apply only_parse_name | intros [[sNum cNum] cType]];
    cbv beta iota.
  apply only_bind; [apply only_ext, Hquiet; reflexivity | intros []].
  apply only_bind; [apply only_ext, Hquiet; reflexivity | intros [inp inpLen]];
    cbv beta iota.
  apply only_bind; [apply only_ext, Hquiet; reflexivity | intros [ib lens]];
    cbv beta iota.
  rewrite Hmode.
  assert (Hrest : forall ib',
             P (EForward ib') = true ->
             only P
               (let* model0 := ext EModuleEval (module_eval env model) in
                let* outputBatch :=
                  ext (EForward ib') (forward env model0 ib') in
                let* (predictionBatch, predictionLenBatch) :=
                  decode_step env args lm outputBatch lens in
                let* pred := to_prediction args predictionBatch in
                let* _ := print ("File: " ++ file) in
                let* _ := print ("Speaker: " ++ sNum ++ "   Clip: " ++ cNum
                                 ++ "   Clip Type: " ++ cType) in
                let* _ := print ("Prediction: " ++ pred) in
                let* _ := print PyStr.nl in
                ret (model0, [sNum; cNum; cType; pred]))).
  { intros ib' Hib.
    apply only_bind; [apply only_ext, Heval | intros m'].
    apply only_bind; [apply only_ext, Hib | intros ob].
    apply only_bind; [apply only_decode_step_free, Hdec | intros [p pl]].
    apply only_bind; [apply only_to_prediction | intros pred].
    do 4 (apply only_bind; [apply only_print | intros _]).
    apply only_ret. }
  specialize (Hfwd (tensor_to env (tensor_float env (fst ib)) device)
                   (tensor_to env (tensor_float env (snd ib)) device)).
  destruct (String.eqb mode "AO"); [apply only_bind_ret, Hrest, Hfwd|].
  destruct (String.eqb mode "VO"); [apply only_bind_ret, Hrest, Hfwd|].
  destruct (String.eqb mode "AV"); [apply only_bind_ret, Hrest, Hfwd|].
  apply only_bind_never_ok.
  - apply only_bind; [apply only_print | intros _; apply only_raise].
  - apply never_ok_bind. intros _. apply never_ok_raise.
Qed.

(** X16: the operation mode decides which inputs the network is run on, in
    the whole run: in "AO" mode it is only ever given the audio input (the
    video input is [None]), in "VO" mode only the video input, in "AV" mode
    both. *)
Theorem operation_mode_selects_the_network_inputs :
  (TEST_DEMO_MODE args = "AO" ->
   only (forward_gets true false) (main env args)) /\
  (TEST_DEMO_MODE args = "VO" ->
   only (forward_gets false true) (main env args)) /\
  (TEST_DEMO_MODE args = "AV" ->
   only (forward_gets true true) (main env args)).
Proof.
  repeat split; intros Hmode;
    (apply only_main_on_device; try reflexivity;
     intros model vf lm root file;
     apply (only_process_file_mode _ _ _ _ _ _ _ _ _ Hmode);
     [ intros e He; destruct e; try discriminate He; reflexivity
     | reflexivity
     | intros e He; destruct e; try discriminate He; reflexivity
     | intros a v; reflexivity ]).
Qed.

Lemma process_file_ok_stdout
    model vf lm noise device root file w model' row w' :
  process_file env args model vf lm noise device root file w
    = (Ok (model', row), w') ->
  exists sNum cNum cType pred,
    row = [sNum; cNum; cType; pred] /\
    stdout w' = (stdout w ++
                 [("File: " ++ file)%string;
                  ("Speaker: " ++ sNum ++ "   Clip: " ++ cNum
                   ++ "   Clip Type: " ++ cType)%string;
                  ("Prediction: " ++ pred)%string;
                  PyStr.nl])%list.
Proof.
  intros Hrun. unfold process_file in Hrun. cbv zeta in Hrun.
  apply bind_ok_inv in Hrun as ([[sNum cNum] cType] & w1 & Hparse & Hrun).
  pose proof (parse_name_pure file w) as Hpure. rewrite Hparse in Hpure.
  cbn in Hpure. subst w1.
  apply bind_ok_inv in Hrun as ([] & w1 & Hpre & Hrun).
  apply ext_ok_inv in Hpre as (g1 & Hpre & ->).
  apply bind_ok_inv in Hrun as ([inp inpLen] & w2 & Hprep & Hrun).
  apply ext_ok_inv in Hprep as (g2 & Hprep & ->).
  apply bind_ok_inv in Hrun as ([ib lens] & w3 & Hcol & Hrun).
  apply ext_ok_inv in Hcol as (g3 & Hcol & ->).
  apply bind_ok_inv in Hrun as (ib' & w4 & Hmode & Hrun).
  assert (Hw4 : stdout w4 = stdout w).
  { repeat match type of Hmode with
           | (if ?c then _ else _) _ = _ => destruct c
           end;
      first [ injection Hmode as _ <-; reflexivity | discriminate Hmode ]. }
  clear Hmode.
  apply bind_ok_inv in Hrun as (m' & w5 & Heval & Hrun).
  apply ext_ok_inv in Heval as (g4 & Heval & ->).
  apply bind_ok_inv in Hrun as (ob & w6 & Hfwd & Hrun).
  apply ext_ok_inv in Hfwd as (g5 & Hfwd & ->).
  apply bind_ok_inv in Hrun as ([p pl] & wd & Hdec & Hrun).
  apply decode_step_ok_inv in Hdec as (eosIx & _ & Hout & _).
  cbn in Hout.
  apply bind_ok_inv in Hrun as (pred & wp & Hpred & Hrun).
  assert (wp = wd) as ->.
  { rewrite to_prediction_run in Hpred. injection Hpred as _ <-. reflexivity. }
  unfold bind in Hrun. rewrite !print_run in Hrun. cbn in Hrun.
  injection Hrun as <- <- <-.
  exists sNum, cNum, cType, pred. split; [reflexivity|].
  cbn. rewrite Hout, Hw4, <- !app_assoc. reflexivity.
Qed.

(** X17: for a file processed to the end, the loop body adds exactly four
    lines to standard output: the file name, a line with the speaker number,
    clip number and clip type, the prediction, and a blank line; the three
    fields and the prediction printed are those of the row that is saved. *)
Theorem printed_lines_agree_with_the_row
    model vf lm noise device root file w model' row w' :
  process_file env args model vf lm noise device root file w
    = (Ok (model', row), w') ->
  exists sNum cNum cType pred,
    row = [sNum; cNum; cType; pred] /\
    stdout w' = (stdout w ++
                 [("File: " ++ file)%string;
                  ("Speaker: " ++ sNum ++ "   Clip: " ++ cNum
                   ++ "   Clip Type: " ++ cType)%string;
                  ("Prediction: " ++ pred)%string;
                  PyStr.nl])%list.
Proof. apply process_file_ok_stdout. Qed.

(** X18: with [args["USE_LM"]] true, every call of the beam-search decoder
    in the run is given a language model (never [None]). *)
Theorem language_model_is_passed_when_enabled :
  USE_LM args = true ->
  only search_with_lm (main env args).
Proof.
  intros Huse. apply only_main.
  - intros e He _. destruct e; try discriminate He; reflexivity.
  - intros model vf lmobj noise device root file. rewrite Huse. cbn [negb].
    unfold process_file. cbv zeta.
    pose proof (only_parse_name (num:=num) (obj:=obj) search_with_lm).
    pose proof (only_to_prediction (obj:=obj) args search_with_lm).
    assert (forall ob lens,
               only search_with_lm
                    (decode_step env args (Some lmobj) ob lens)).
    { intros. unfold decode_step. cbv zeta. only_steps. }
    only_steps.
Qed.

Lemma only_process_file_decoder P model vf lm noise device root file :
  (forall e, is_decode e = false -> P e = true) ->
  (forall ob lens, only P (decode_step env args lm ob lens)) ->
  only P (process_file env args model vf lm noise device root file).
Proof.
  intros Hquiet Hdec. unfold process_file. cbv zeta.
  pose proof (only_parse_name (num:=num) (obj:=obj) P).
  pose proof (only_to_prediction (obj:=obj) args P).
  repeat first
    [ solve [auto with run_only]
    | apply Hdec
    | apply only_ext, Hquiet; reflexivity
    | apply only_bind; [ | intros ? ]
    | match goal with
      | |- only _ (match ?x with (_, _) => _ end) => destruct x
      | |- only _ (if ?c then _ else _) => destruct c
      end ].
Qed.

(** X19: the decode mode selects one decoder for the whole run: in "greedy"
    mode the beam-search decoder is never called, in "search" mode the
    greedy decoder is never called. *)
Theorem only_the_selected_decoder_is_called :
  (TEST_DEMO_DECODING args = "greedy" -> only no_search (main env args)) /\
  (TEST_DEMO_DECODING args = "search" -> only no_greedy (main env args)).
Proof.
  split; intros Hmode;
    (apply only_main;
     [ intros e He _; destruct e; try discriminate He; reflexivity
     | intros model vf lmobj noise device root file;
       apply only_process_file_decoder;
       [ intros e He; destruct e; try discriminate He; reflexivity
       | intros ob lens; unfold decode_step; rewrite Hmode;
         simpl (String.eqb _ _); cbv beta iota zeta;
         repeat (apply only_bind; [apply only_getitem | intros ?]);
         apply only_ext; reflexivity ] ]).
Qed.

End ModesAndFailures.

(** ** Standard output *)

Section StandardOutput.
Context {num obj : Type}.
Variable env : Env num obj.
Variable args : Args num.
Implicit Types (w : World num obj) (lm noise : option obj).

Lemma load_module_ok_stdout ev ctor path device w m w1 :
  load_module env ev ctor path device w = (Ok m, w1) -> stdout w1 = stdout w.
Proof.
  unfold load_module. intros Hrun.
  apply bind_ok_inv in Hrun as (m0 & wa & Ha & Hrun).
  apply ext_ok_inv in Ha as (ga & _ & ->).
  apply bind_ok_inv in Hrun as (sd & wb & Hb & Hrun).
  apply ext_ok_inv in Hb as (gb & _ & ->).
  apply bind_ok_inv in Hrun as (m1 & wc & Hc & Hrun).
  apply ext_ok_inv in Hc as (gc & _ & ->).
  apply ext_ok_inv in Hrun as (gd & _ & ->).
  reflexivity.
Qed.

Lemma print_ok_inv s w (u : unit) w1 :
  print s w = (Ok u, w1) ->
  w1 = mkWorld (rng w) (stdout w ++ [s])%list (trace w) (files w).
Proof. rewrite print_run. intros [= _ <-]. reflexivity. Qed.

(** The lines one directory adds: four per video, in order. *)
Lemma walk_files_stdout vf lm noise device root fs :
  forall model rows w model' rows' w',
    walk_files env args vf lm noise device root (model, rows) fs w
      = (Ok (model', rows'), w') ->
    exists new,
      rows' = (rows ++ new)%list /\
      length new = length (List.filter is_video fs) /\
      stdout w'
      = (stdout w ++ concat (zip_with report (List.filter is_video fs) new))%list.
Proof.
  induction fs as [|file fs IH]; intros model rows w model' rows' w' Hrun.
  - injection Hrun as <- <- <-. exists []. rewrite !app_nil_r.
    repeat split.
  - unfold walk_files in Hrun. cbn [foldM] in Hrun.
    apply bind_ok_inv in Hrun as ([model1 rows1] & w1 & Hstep & Hrest).
    change (walk_files env args vf lm noise device root (model1, rows1) fs w1
            = (Ok (model', rows'), w')) in Hrest.
    apply IH in Hrest as (new & -> & Hlen & Hout).
    cbn [List.filter]. change (is_video file) with (PyStr.endswith file ".mp4").
    destruct (PyStr.endswith file ".mp4").
    + apply bind_ok_inv in Hstep as ([m r] & w2 & Hfile & Hret).
      injection Hret as <- <- <-.
      apply process_file_ok_stdout in Hfile
        as (sNum & cNum & cType & pred & -> & Hlines).
      exists ([sNum; cNum; cType; pred] :: new). rewrite <- app_assoc.
      split; [reflexivity|]. split; [cbn; lia|].
      cbn [zip_with concat report]. rewrite Hout, Hlines, <- !app_assoc.
      reflexivity.
    + injection Hstep as <- <- <-. exists new.
      split; [reflexivity|]. split; [exact Hlen | exact Hout].
Qed.

Lemma walk_dirs_stdout vf lm noise device walk :
  forall model rows w model' rows' w',
    foldM (fun st '(root, dirs, fs) =>
             walk_files env args vf lm noise device root st fs)
          (model, rows) walk w
      = (Ok (model', rows'), w') ->
    exists new,
      rows' = (rows ++ new)%list /\
      length new = length (videos walk) /\
      stdout w' = (stdout w ++ concat (zip_with report (videos walk) new))%list.
Proof.
  induction walk as [|[[root dirs] fs] walk IH];
    intros model rows w model' rows' w' Hrun.
  - injection Hrun as <- <- <-. exists []. rewrite !app_nil_r.
    repeat split.
  - cbn [foldM] in Hrun.
    apply bind_ok_inv in Hrun as ([model1 rows1] & w1 & Hdir & Hrest).
    apply walk_files_stdout in Hdir as (new1 & -> & Hlen1 & Hout1).
    apply IH in Hrest as (new2 & -> & Hlen2 & Hout2).
    exists (new1 ++ new2)%list. rewrite <- app_assoc.
    split; [reflexivity|].
    unfold videos in *. cbn [flat_map snd]. split.
    + rewrite !length_app. lia.
    + rewrite zip_with_app by (symmetry; exact Hlen1).
      rewrite concat_app, Hout2, Hout1, <- !app_assoc. reflexivity.
Qed.

(** X20: standard output of a completed run.  With a trained model file
    given, a run that completes has printed the model file, the demo
    directory, the "Running Demo" banner and the operation mode, then for
    each [.mp4] file of the walk, in order, the four lines of its row as it
    is saved in the prediction file, and last "Demo Completed."; it has
    printed nothing else. *)
Theorem standard_output_of_a_completed_run trained w w' :
  TRAINED_MODEL_FILE args = Some trained ->
  main env args w = (Ok tt, w') ->
  exists rows,
    files w' !! "predictions-noise-10db.csv" = Some rows /\
    length rows = length (videos (os_walk env (DEMO_DIRECTORY args))) /\
    stdout w'
    = (stdout w ++
       [(PyStr.nl ++ "Trained Model File: " ++ trained)%string;
        (PyStr.nl ++ "Demo Directory: " ++ DEMO_DIRECTORY args)%string;
        (PyStr.nl ++ PyStr.nl ++ "Running Demo .... " ++ PyStr.nl)%string;
        TEST_DEMO_MODE args] ++
       concat (zip_with report (videos (os_walk env (DEMO_DIRECTORY args)))
                        rows) ++
       [("Demo Completed." ++ PyStr.nl)%string])%list.
Proof.
  intros Hfile Hrun. unfold main in Hrun. rewrite Hfile in Hrun.
  cbv zeta in Hrun. rewrite bind_seeds in Hrun.
  unfold run_demo in Hrun. cbv zeta in Hrun.
  apply bind_ok_inv in Hrun as (u1 & w1 & H1 & Hrun).
  apply print_ok_inv in H1. cbn [rng stdout trace files] in H1.
  apply bind_ok_inv in Hrun as (u2 & w2 & H2 & Hrun).
  apply print_ok_inv in H2.
  apply bind_ok_inv in Hrun as (model & w3 & H3 & Hrun).
  apply load_module_ok_stdout in H3.
  apply bind_ok_inv in Hrun as (vf & w4 & H4 & Hrun).
  apply load_module_ok_stdout in H4.
  apply bind_ok_inv in Hrun as (lmobj & w5 & H5 & Hrun).
  apply load_module_ok_stdout in H5.
  apply bind_ok_inv in Hrun as (noise & w6 & H6 & Hrun).
  assert (Hw6 : w6 = w5).
  { destruct (TEST_DEMO_NOISY args); [discriminate H6|].
    injection H6 as _ <-. reflexivity. }
  clear H6. subst w6.
  apply bind_ok_inv in Hrun as (u7 & w7 & H7 & Hrun).
  apply print_ok_inv in H7.
  apply bind_ok_inv in Hrun as (u8 & w8 & H8 & Hrun).
  apply print_ok_inv in H8.
  apply bind_ok_inv in Hrun as ([model' rows] & w9 & Hwalk & Hrun).
  apply walk_dirs_stdout in Hwalk as (new & Hnew & Hlen & Hout).
  cbn in Hnew. subst rows.
  unfold bind in Hrun. rewrite print_run, write_csv_run in Hrun.
  injection Hrun as <-. cbn [rng stdout trace files].
  exists new. split; [apply lookup_insert_eq|]. split; [exact Hlen|].
  rewrite Hout. rewrite H8. cbn [stdout]. rewrite H7. cbn [stdout].
  rewrite H5, H4, H3, H2. cbn [stdout]. rewrite H1. cbn [stdout].
  rewrite <- !app_assoc. reflexivity.
Qed.

End StandardOutput.

(** * The further properties on the sample instance *)

Section MoreInstances.
Import Sample.
Import Cases.

Lemma sample_file_steps_never_raise : file_steps_never_raise env.
Proof. repeat split; intros; intros g; reflexivity. Qed.


Lemma name_fields_witness :
  14 <= PyStr.len "speaker2clip3base.mp4" /\
  exists cNum cType,
    parse_name (num:=tnum) (obj:=string) "speaker2clip3base.mp4" w0
      = (Ok ("2", cNum, cType), w0) /\
    PyStr.index "speaker2clip3base.mp4" 12 = Some cNum /\
    cType = "base".
Proof.
  assert (Hlen : 14 <= PyStr.len "speaker2clip3base.mp4") by discriminate.
  split; [exact Hlen|].
  destruct (name_fields (num:=tnum) (obj:=string) "speaker2clip3base.mp4" w0
              Hlen)
    as (sNum & c13 & c6 & cNum & cType & H7 & H13 & H6 & Hp & _ & _ & Hone
        & _ & Hbase & _).
  vm_compute in H7. injection H7 as <-.
  vm_compute in H13. injection H13 as <-.
  vm_compute in H6. injection H6 as <-.
  exists cNum, cType. split; [exact Hp|]. split.
  - apply Hone. intros Hin. cbn in Hin.
    repeat (destruct Hin as [Hin | Hin]; [discriminate Hin|]). exact Hin.
  - apply Hbase; [discriminate | reflexivity].
Defined.

Lemma prediction_witness :
  Forall2 (fun ix c => INDEX_TO_CHAR args_greedy !! ix = Some c)
          (removelast [2; 3; 4]) ["A"; "B"] /\
  to_prediction (obj:=string) args_greedy [2; 3; 4] w0 = (Ok "AB", w0) /\
  to_prediction (obj:=string) args_greedy [2; 3; 9] w0 = (Ok "AB", w0).
Proof.
  assert (Hall : Forall2 (fun ix c => INDEX_TO_CHAR args_greedy !! ix = Some c)
                         (removelast [2; 3; 4]) ["A"; "B"]).
  { constructor; [reflexivity|]. constructor; [reflexivity|]. constructor. }
  destruct (prediction_reads_all_but_last_index (obj:=string) args_greedy)
    as (Hlast & _ & _ & _ & Hjoin).
  split; [exact Hall|]. split.
  - exact (Hjoin [2; 3; 4] w0 ["A"; "B"] Hall).
  - exact (eq_trans (Hlast [2; 3] 9 4 w0)
                    (Hjoin [2; 3; 4] w0 ["A"; "B"] Hall)).
Defined.

Lemma csv_file_witness :
  "notes.csv" <> "predictions-noise-10db.csv" /\
  files (snd (write_csv "predictions-noise-10db.csv"
                [["1"; "12"; "jumble"; "AB"]] w_with_files))
    !! "predictions-noise-10db.csv" = Some [["1"; "12"; "jumble"; "AB"]] /\
  files (snd (write_csv "predictions-noise-10db.csv"
                [["1"; "12"; "jumble"; "AB"]] w_with_files))
    !! "notes.csv" = Some [["kept"]].
Proof.
  assert (Hne : "notes.csv" <> "predictions-noise-10db.csv") by discriminate.
  destruct (csv_file_holds_exactly_the_rows "predictions-noise-10db.csv"
              [["1"; "12"; "jumble"; "AB"]] w_with_files)
    as (_ & Hfile & Hother & _).
  split; [exact Hne|]. split; [exact Hfile|].
  exact (eq_trans (Hother "notes.csv" Hne) eq_refl).
Defined.


Lemma one_row_per_video_witness :
  TRAINED_MODEL_FILE args_greedy = Some "/weights/audio-visual.pt" /\
  fst (main env_two_directories args_greedy w_with_files) = Ok tt /\
  exists rows,
    files (snd (main env_two_directories args_greedy w_with_files))
    = <["predictions-noise-10db.csv" := rows]> (files w_with_files) /\
    length rows = 3%nat.
Proof.
  assert (Hrun : main env_two_directories args_greedy w_with_files
                 = (Ok tt, snd (main env_two_directories args_greedy
                                     w_with_files)))
    by (vm_compute; reflexivity).
  destruct (one_row_per_video env_two_directories args_greedy
              "/weights/audio-visual.pt" w_with_files _ eq_refl Hrun)
    as (rows & Hfiles & Hrows & _).
  split; [reflexivity|]. split; [rewrite Hrun; reflexivity|].
  exists rows. split; [exact Hfiles|].
  apply Forall2_length in Hrows. rewrite <- Hrows. reflexivity.
Defined.

Lemma setup_call_sequence_witness :
  TRAINED_MODEL_FILE args_greedy = Some "/weights/audio-visual.pt" /\
  loads_never_raise env /\
  exists rest,
    trace (snd (main env args_greedy w0))
    = ([ESeedNumpy 19220297; ESeedTorch 19220297;
        ENewAVNet;
        ETorchLoad "/code/weights/audio-visual.pt" "cpu";
        ELoadStateDict; EModuleTo "cpu";
        ENewVisualFrontend;
        ETorchLoad "/code/visual_frontend.pt" "cpu";
        ELoadStateDict; EModuleTo "cpu";
        ENewLRS2CharLM;
        ETorchLoad "/code/language_model.pt" "cpu";
        ELoadStateDict; EModuleTo "cpu"] ++ rest)%list.
Proof.
  split; [reflexivity|]. split; [exact sample_loads_never_raise|].
  exact (setup_call_sequence env args_greedy "/weights/audio-visual.pt" w0
           eq_refl sample_loads_never_raise).
Defined.

Lemma language_model_file_witness :
  USE_LM args_search = false /\
  TRAINED_MODEL_FILE args_search = Some "/weights/audio-visual.pt" /\
  always_raises (torch_load env_without_lm_file (TRAINED_LM_FILE args_search)
                            (device_of env_without_lm_file)) /\
  is_ok (fst (main env_without_lm_file args_search w0)) = false /\
  files (snd (main env_without_lm_file args_search w0)) = files w0.
Proof.
  assert (Hraise : always_raises
                     (torch_load env_without_lm_file
                        (TRAINED_LM_FILE args_search)
                        (device_of env_without_lm_file)))
    by (intros g; reflexivity).
  destruct (language_model_file_is_always_needed env_without_lm_file
              args_search "/weights/audio-visual.pt" eq_refl Hraise)
    as (Hnever & _ & Hfiles).
  split; [reflexivity|]. split; [reflexivity|]. split; [exact Hraise|].
  split; [apply Hnever | apply Hfiles].
Defined.

Lemma sample_invalid_operation : invalid_operation args_bad_mode.
Proof. repeat split; discriminate. Qed.

Lemma invalid_operation_mode_witness :
  invalid_operation args_bad_mode /\
  is_ok (fst (process_file env args_bad_mode "AVNet" "VisualFrontend" None
                None "cpu" "demo" "speaker1clip12jumble.mp4" w0)) = false /\
  only no_network (main env args_bad_mode).
Proof.
  destruct (invalid_operation_mode_never_runs_the_network env args_bad_mode
              sample_invalid_operation) as (Hbody & Hmain).
  split; [exact sample_invalid_operation|].
  split; [apply Hbody | exact Hmain].
Defined.

Lemma invalid_operation_exit_witness :
  invalid_operation args_bad_mode /\
  file_steps_never_raise env /\
  14 <= PyStr.len "speaker1clip12jumble.mp4" /\
  exists inp inpLen w',
    process_file env args_bad_mode "AVNet" "VisualFrontend" None None "cpu"
                 "demo" "speaker1clip12jumble.mp4" w0
      = (Raise SystemExit, w') /\
    stdout w' = (stdout w0 ++ ["Invalid Operation Mode."])%list /\
    trace w' = (trace w0 ++
                [EPreprocess "demo/speaker1clip12jumble";
                 EPrepareInput "demo/speaker1clip12jumble.wav"
                               "demo/speaker1clip12jumble.npy" None;
                 ECollate [(inp, inpLen)]])%list /\
    files w' = files w0.
Proof.
  assert (Hlen : 14 <= PyStr.len "speaker1clip12jumble.mp4") by discriminate.
  split; [exact sample_invalid_operation|].
  split; [exact sample_file_steps_never_raise|].
  split; [exact Hlen|].
  exact (invalid_operation_mode_exits_after_collation env args_bad_mode
           "AVNet" "VisualFrontend" None None "cpu" "demo"
           "speaker1clip12jumble.mp4" w0 sample_invalid_operation
           sample_file_steps_never_raise Hlen).
Defined.

Lemma invalid_decode_mode_witness :
  invalid_decoding args_video_beam /\
  valid_operation args_video_beam /\
  file_steps_never_raise env /\
  14 <= PyStr.len "speaker1clip12jumble.mp4" /\
  exists inp inpLen inputBatch w',
    process_file env args_video_beam "AVNet" "VisualFrontend" None None "cpu"
                 "demo" "speaker1clip12jumble.mp4" w0
      = (Raise SystemExit, w') /\
    stdout w' = (stdout w0 ++ ["Invalid Decode Scheme"])%list /\
    trace w' = (trace w0 ++
                [EPreprocess "demo/speaker1clip12jumble";
                 EPrepareInput "demo/speaker1clip12jumble.wav"
                               "demo/speaker1clip12jumble.npy" None;
                 ECollate [(inp, inpLen)];
                 EModuleEval;
                 EForward inputBatch])%list /\
    files w' = files w0.
Proof.
  assert (Hlen : 14 <= PyStr.len "speaker1clip12jumble.mp4") by discriminate.
  assert (Hinv : invalid_decoding args_video_beam) by (split; discriminate).
  assert (Hvalid : valid_operation args_video_beam)
    by (right; left; reflexivity).
  split; [exact Hinv|]. split; [exact Hvalid|].
  split; [exact sample_file_steps_never_raise|].
  split; [exact Hlen|].
  exact (invalid_decode_mode_exits_after_the_network env args_video_beam
           "AVNet" "VisualFrontend" None None "cpu" "demo"
           "speaker1clip12jumble.mp4" w0 Hinv Hvalid
           sample_file_steps_never_raise Hlen).
Defined.

Lemma sample_index_missing : decoder_index_missing args_no_eos.
Proof. left. split; reflexivity. Qed.

Lemma missing_symbol_index_witness :
  decoder_index_missing args_no_eos /\
  decode_step env args_no_eos None [posteriors] [5] w0 = (Raise KeyError, w0) /\
  only no_decode (main env args_no_eos).
Proof.
  destruct (missing_symbol_index_raises_key_error env args_no_eos
              sample_index_missing) as (Hstep & _ & Hmain).
  split; [exact sample_index_missing|].
  split; [apply Hstep | exact Hmain].
Defined.

Lemma misconfigured_run_witness :
  TRAINED_MODEL_FILE args_bad_mode = Some "/weights/audio-visual.pt" /\
  videos (os_walk env (DEMO_DIRECTORY args_bad_mode)) <> [] /\
  invalid_operation args_bad_mode /\
  is_ok (fst (main env args_bad_mode w_with_files)) = false /\
  files (snd (main env args_bad_mode w_with_files)) = files w_with_files.
Proof.
  assert (Hv : videos (os_walk env (DEMO_DIRECTORY args_bad_mode)) <> [])
    by discriminate.
  destruct (misconfigured_run_with_a_video_fails env args_bad_mode
              "/weights/audio-visual.pt" eq_refl Hv
              (or_introl sample_invalid_operation)) as (Hnever & Hfiles).
  split; [reflexivity|]. split; [exact Hv|].
  split; [exact sample_invalid_operation|].
  split; [apply Hnever | apply Hfiles].
Defined.

Lemma operation_mode_witness :
  TEST_DEMO_MODE args_audio_only = "AO" /\
  only (forward_gets true false) (main env args_audio_only) /\
  TEST_DEMO_MODE args_video_only = "VO" /\
  only (forward_gets false true) (main env args_video_only) /\
  TEST_DEMO_MODE args_greedy = "AV" /\
  only (forward_gets true true) (main env args_greedy).
Proof.
  destruct (operation_mode_selects_the_network_inputs env args_audio_only)
    as (Hao & _ & _).
  destruct (operation_mode_selects_the_network_inputs env args_video_only)
    as (_ & Hvo & _).
  destruct (operation_mode_selects_the_network_inputs env args_greedy)
    as (_ & _ & Hav).
  split; [reflexivity|]. split; [exact (Hao eq_refl)|].
  split; [reflexivity|]. split; [exact (Hvo eq_refl)|].
  split; [reflexivity | exact (Hav eq_refl)].
Defined.

Lemma printed_lines_witness :
  process_file env args_greedy "AVNet" "VisualFrontend" None None "cpu" "demo"
               "speaker1clip12jumble.mp4" w0
  = (Ok ("AVNet", ["1"; "12"; "jumble"; "AB"]),
     snd (process_file env args_greedy "AVNet" "VisualFrontend" None None
                       "cpu" "demo" "speaker1clip12jumble.mp4" w0)) /\
  stdout (snd (process_file env args_greedy "AVNet" "VisualFrontend" None None
                            "cpu" "demo" "speaker1clip12jumble.mp4" w0))
  = ["File: speaker1clip12jumble.mp4";
     "Speaker: 1   Clip: 12   Clip Type: jumble";
     "Prediction: AB";
     PyStr.nl].
Proof.
  assert (Hrun :
    process_file env args_greedy "AVNet" "VisualFrontend" None None "cpu"
                 "demo" "speaker1clip12jumble.mp4" w0
    = (Ok ("AVNet", ["1"; "12"; "jumble"; "AB"]),
       snd (process_file env args_greedy "AVNet" "VisualFrontend" None None
                         "cpu" "demo" "speaker1clip12jumble.mp4" w0)))
    by (vm_compute; reflexivity).
  split; [exact Hrun|].
  destruct (printed_lines_agree_with_the_row env args_greedy _ _ _ _ _ _ _ _
              _ _ _ Hrun) as (sNum & cNum & cType & pred & Hrow & Hout).
  injection Hrow as <- <- <- <-. exact Hout.
Defined.

Lemma language_model_passed_witness :
  USE_LM args_video_only = true /\
  only search_with_lm (main env args_video_only).
Proof.
  split; [reflexivity|].
  exact (language_model_is_passed_when_enabled env args_video_only eq_refl).
Defined.

Lemma selected_decoder_witness :
  TEST_DEMO_DECODING args_greedy = "greedy" /\
  only no_search (main env args_greedy) /\
  TEST_DEMO_DECODING args_search = "search" /\
  only no_greedy (main env args_search).
Proof.
  destruct (only_the_selected_decoder_is_called env args_greedy) as (Hg & _).
  destruct (only_the_selected_decoder_is_called env args_search) as (_ & Hs).
  split; [reflexivity|]. split; [exact (Hg eq_refl)|].
  split; [reflexivity | exact (Hs eq_refl)].
Defined.

Lemma standard_output_witness :
  TRAINED_MODEL_FILE args_greedy = Some "/weights/audio-visual.pt" /\
  fst (main env_two_directories args_greedy w0) = Ok tt /\
  exists rows,
    files (snd (main env_two_directories args_greedy w0))
      !! "predictions-noise-10db.csv" = Some rows /\
    length rows = 3%nat /\
    length (stdout (snd (main env_two_directories args_greedy w0))) = 17%nat.
Proof.
  assert (Hrun : main env_two_directories args_greedy w0
                 = (Ok tt, snd (main env_two_directories args_greedy w0)))
    by (vm_compute; reflexivity).
  destruct (standard_output_of_a_completed_run env_two_directories args_greedy
              "/weights/audio-visual.pt" w0 _ eq_refl Hrun)
    as (rows & Hfile & Hlen & Hout).
  split; [reflexivity|]. split; [rewrite Hrun; reflexivity|].
  exists rows. split; [exact Hfile|]. split; [exact Hlen|].
  rewrite Hout. destruct rows as [|r1 [|r2 [|r3 [|r4 rows]]]];
    try discriminate Hlen.
  vm_compute in Hfile. injection Hfile as <- <- <-. reflexivity.
Defined.

End MoreInstances.
